(** * XTTS v2 backend server: a shallow embedding of [server.py]

    The FastAPI service of [XTTS v2/Backend Server/server.py] is embedded as
    pure functions over an explicit program state.  Python values keep their
    shape: floats are binary64 ([PrimFloat.float], what a Python [float] is),
    [dict]s are association lists in insertion order, keyword arguments are a
    [dict] of values, exceptions are an inductive type, and the handlers are
    written in a small state-and-exception monad whose [try_except] follows
    the two [except] clauses of the source. *)

From Stdlib Require Import String Ascii List ZArith Bool PrimFloat Lia.
Import ListNotations.

Set Warnings "-inexact-float".
Open Scope string_scope.

(** ** Python values and dictionaries *)

Inductive pyval : Type :=
| PyNone
| PyFloat (x : float)
| PyInt (n : Z)
| PyStr (s : string).

(** A [dict] with string keys, in insertion order. *)
Definition dict (A : Type) : Type := list (string * A).

Fixpoint dict_get {A : Type} (k : string) (d : dict A) : option A :=
  match d with
  | [] => None
  | (k', v) :: rest => if String.eqb k k' then Some v else dict_get k rest
  end.

(** [k in d] *)
Definition dict_contains {A : Type} (k : string) (d : dict A) : bool :=
  match dict_get k d with
  | Some _ => true
  | None => false
  end.

(** [list(d.keys())] *)
Definition dict_keys {A : Type} (d : dict A) : list string := map fst d.

(** [repr] of a [str] free of quotes, backslashes and control characters
    (every key of [EMOTION_SETTINGS] is such a string). *)
Definition repr_str (s : string) : string := "'" ++ s ++ "'".

Fixpoint join (sep : string) (l : list string) : string :=
  match l with
  | [] => ""
  | [x] => x
  | x :: rest => x ++ sep ++ join sep rest
  end.

(** [repr] of a list of such strings: ['a', 'b']. *)
Definition repr_list_str (l : list string) : string :=
  "[" ++ join ", " (map repr_str l) ++ "]".

(** The type name Python prints in a [TypeError]. *)
Definition type_name (v : pyval) : string :=
  match v with
  | PyNone => "NoneType"
  | PyFloat _ => "float"
  | PyInt _ => "int"
  | PyStr _ => "str"
  end.

(** Truthiness of an [Optional[str]]: [None] and the empty string are falsy. *)
Definition truthy (o : option string) : bool :=
  match o with
  | None => false
  | Some EmptyString => false
  | Some (String _ _) => true
  end.

Definition opt_float (o : option float) : pyval :=
  match o with
  | Some x => PyFloat x
  | None => PyNone
  end.

Definition opt_int (o : option Z) : pyval :=
  match o with
  | Some n => PyInt n
  | None => PyNone
  end.

(** [os.path.basename]: what follows the last slash. *)
Fixpoint has_sep (s : string) : bool :=
  match s with
  | EmptyString => false
  | String c r => Ascii.eqb c "/" || has_sep r
  end.

Fixpoint basename (p : string) : string :=
  match p with
  | EmptyString => EmptyString
  | String c r => if has_sep p then basename r else p
  end.

(** ** Request models (lines 55-76) *)

Module TTSRequest.
Record t : Type := mk {
  text : string;
  speaker_wav : option string;
  language : string;
  speed : option float;
  temperature : option float;
  length_penalty : option float;
  repetition_penalty : option float;
  top_k : option Z;
  top_p : option float
}.
End TTSRequest.

Module EmotionPreset.
Record t : Type := mk {
  text : string;
  emotion : string;
  speaker_wav : option string;
  language : string
}.
End EmotionPreset.

(** A field of a JSON body before the model is built: the key is missing,
    holds [null], or holds a value of the field's type.  A value of another
    JSON type, which the framework either converts or refuses, is not
    represented. *)
Inductive field (A : Type) : Type :=
| Missing
| Null
| Value (a : A).
Arguments Missing {A}.
Arguments Null {A}.
Arguments Value {A} a.

(** [name: T] (required, not optional). *)
Definition required {A : Type} (f : field A) : option A :=
  match f with
  | Value a => Some a
  | Missing | Null => None
  end.

(** [name: T = d] (not optional: [null] is refused). *)
Definition defaulted {A : Type} (d : A) (f : field A) : option A :=
  match f with
  | Missing => Some d
  | Value a => Some a
  | Null => None
  end.

(** [name: Optional[T] = d]. *)
Definition optional {A : Type} (d : option A) (f : field A) : option A :=
  match f with
  | Missing => d
  | Null => None
  | Value a => Some a
  end.

Module TTSRequestBody.
Record t : Type := mk {
  text : field string;
  speaker_wav : field string;
  language : field string;
  speed : field float;
  temperature : field float;
  length_penalty : field float;
  repetition_penalty : field float;
  top_k : field Z;
  top_p : field float
}.
End TTSRequestBody.

Module EmotionPresetBody.
Record t : Type := mk {
  text : field string;
  emotion : field string;
  speaker_wav : field string;
  language : field string
}.
End EmotionPresetBody.

(** Building a [TTSRequest] from a body, with the defaults of lines 56-66;
    [None] is the framework's validation error. *)
Definition parse_TTSRequest (b : TTSRequestBody.t) : option TTSRequest.t :=
  match required (TTSRequestBody.text b),
        defaulted "en" (TTSRequestBody.language b) with
  | Some txt, Some lang =>
      Some {| TTSRequest.text := txt;
              TTSRequest.speaker_wav := optional None (TTSRequestBody.speaker_wav b);
              TTSRequest.language := lang;
              TTSRequest.speed := optional (Some 1.0%float) (TTSRequestBody.speed b);
              TTSRequest.temperature := optional (Some 0.75%float) (TTSRequestBody.temperature b);
              TTSRequest.length_penalty := optional (Some 1.0%float) (TTSRequestBody.length_penalty b);
              TTSRequest.repetition_penalty := optional (Some 5.0%float) (TTSRequestBody.repetition_penalty b);
              TTSRequest.top_k := optional (Some 50%Z) (TTSRequestBody.top_k b);
              TTSRequest.top_p := optional (Some 0.85%float) (TTSRequestBody.top_p b) |}
  | _, _ => None
  end.

(** Building an [EmotionPreset] from a body (lines 71-76). *)
Definition parse_EmotionPreset (b : EmotionPresetBody.t) : option EmotionPreset.t :=
  match required (EmotionPresetBody.text b),
        required (EmotionPresetBody.emotion b),
        defaulted "en" (EmotionPresetBody.language b) with
  | Some txt, Some emo, Some lang =>
      Some {| EmotionPreset.text := txt;
              EmotionPreset.emotion := emo;
              EmotionPreset.speaker_wav := optional None (EmotionPresetBody.speaker_wav b);
              EmotionPreset.language := lang |}
  | _, _, _ => None
  end.

(** ** Module-level constants (lines 45, 81-118) *)

Definition DEFAULT_SPEAKER_WAV : string := "test.wav".

Definition EMOTION_SETTINGS : dict (dict pyval) :=
  [ ("happy",
      [ ("temperature", PyFloat 0.85); ("speed", PyFloat 1.1);
        ("top_p", PyFloat 0.9); ("prefix", PyStr "**excited** ") ]);
    ("sad",
      [ ("temperature", PyFloat 0.65); ("speed", PyFloat 0.9);
        ("top_p", PyFloat 0.75); ("prefix", PyStr "**sadly** ") ]);
    ("angry",
      [ ("temperature", PyFloat 0.95); ("speed", PyFloat 1.15);
        ("top_p", PyFloat 0.95); ("prefix", PyStr "**angrily** ") ]);
    ("excited",
      [ ("temperature", PyFloat 0.95); ("speed", PyFloat 1.2);
        ("top_p", PyFloat 0.95); ("prefix", PyStr "**very excited** ") ]);
    ("calm",
      [ ("temperature", PyFloat 0.6); ("speed", PyFloat 0.95);
        ("top_p", PyFloat 0.7); ("prefix", PyStr "**calmly** ") ]);
    ("whisper",
      [ ("temperature", PyFloat 0.5); ("speed", PyFloat 0.85);
        ("top_p", PyFloat 0.6); ("prefix", PyStr "**whispers** ") ]) ].

(** ** Exceptions, responses and the program state *)

(** Exceptions other than [HTTPException] that the handlers can meet. *)
Inductive exception : Type :=
| KeyError (key : string)
| TypeError (msg : string)
| EnvError (msg : string).

(** [str(e)] *)
Definition str (e : exception) : string :=
  match e with
  | KeyError k => repr_str k
  | TypeError m => m
  | EnvError m => m
  end.

Inductive raised : Type :=
| HTTPException (status_code : Z) (detail : string)
| Exception (e : exception).

(** What a handler returns. *)
Inductive response : Type :=
| FileResponse (path filename media_type : string)
| RootInfo (message device default_speaker : string)
           (available_emotions : list string) (voice_controls : dict string)
| EmotionList (available_emotions : list string) (settings : dict (dict pyval)).

(** A piece of an f-string handed to [print]. *)
Inductive fragment : Type :=
| Lit (s : string)
| Fmt (v : pyval).

(** Keyword arguments of one call of [tts.tts_to_file]. *)
Definition kwargs : Type := dict pyval.

(** The mutable part of the process: the module-level dictionary, what was
    printed, and the calls made to the synthesis backend, oldest first. *)
Record State : Type := mkState {
  g_EMOTION_SETTINGS : dict (dict pyval);
  stdout : list (list fragment);
  tts_calls : list kwargs
}.

Definition initial_state : State :=
  {| g_EMOTION_SETTINGS := EMOTION_SETTINGS; stdout := []; tts_calls := [] |}.

(** What the collaborators answer during one request: whether
    [os.makedirs] and [tts.tts_to_file] raise ([Some msg]) or return
    ([None]), the hex of the fresh uuid, and [os.path.exists]. *)
Record World : Type := mkWorld {
  os_makedirs : string -> option string;
  uuid4_hex : string;
  os_path_exists : string -> bool;
  tts_to_file_outcome : kwargs -> option string
}.

(** ** The state-and-exception monad *)

Inductive result (A : Type) : Type :=
| Returns (a : A)
| Raises (e : raised).
Arguments Returns {A} a.
Arguments Raises {A} e.

Definition M (A : Type) : Type := State -> result A * State.

Definition ret {A : Type} (a : A) : M A := fun st => (Returns a, st).

Definition bind {A B : Type} (m : M A) (k : A -> M B) : M B :=
  fun st =>
    match m st with
    | (Returns a, st') => k a st'
    | (Raises e, st') => (Raises e, st')
    end.

Definition raise {A : Type} (e : raised) : M A := fun st => (Raises e, st).

Declare Scope py_scope.
Delimit Scope py_scope with py.
Notation "x <- m ;; k" := (bind m (fun x => k))
  (at level 100, m at next level, right associativity) : py_scope.
Notation "m ;;; k" := (bind m (fun _ => k))
  (at level 100, right associativity) : py_scope.
Open Scope py_scope.

(** One more line on the standard output. *)
Definition log (line : list fragment) (st : State) : State :=
  {| g_EMOTION_SETTINGS := g_EMOTION_SETTINGS st;
     stdout := stdout st ++ [line];
     tts_calls := tts_calls st |}.

(** One more call of the synthesis backend. *)
Definition record_call (kw : kwargs) (st : State) : State :=
  {| g_EMOTION_SETTINGS := g_EMOTION_SETTINGS st;
     stdout := stdout st;
     tts_calls := tts_calls st ++ [kw] |}.

(** [print(...)] *)
Definition print (line : list fragment) : M unit :=
  fun st => (Returns tt, log line st).

(** Reading the global [EMOTION_SETTINGS]. *)
Definition read_EMOTION_SETTINGS : M (dict (dict pyval)) :=
  fun st => (Returns (g_EMOTION_SETTINGS st), st).

(** [d[k]] *)
Definition subscript {A : Type} (d : dict A) (k : string) : M A :=
  match dict_get k d with
  | Some v => ret v
  | None => raise (Exception (KeyError k))
  end.

(** [prefix + text] with [text] a [str]. *)
Definition add_str (prefix : pyval) (text : string) : M string :=
  match prefix with
  | PyStr p => ret (p ++ text)
  | v => raise (Exception (TypeError
           ("unsupported operand type(s) for +: '" ++ type_name v ++ "' and 'str'")))
  end.

(** The [try ... except HTTPException: raise ... except Exception as e]
    wrapper of both handlers (lines 182-186 and 239-243). *)
Definition try_except {A : Type} (body : M A) : M A :=
  fun st =>
    match body st with
    | (Returns a, st') => (Returns a, st')
    | (Raises (HTTPException c d), st') => (Raises (HTTPException c d), st')
    | (Raises (Exception e), st') =>
        (print [Lit "[ERROR] "; Fmt (PyStr (str e))] ;;;
         raise (HTTPException 500 (str e))) st'
    end.

(** [req.speaker_wav if req.speaker_wav else DEFAULT_SPEAKER_WAV] *)
Definition speaker_file (speaker_wav : option string) : string :=
  if truthy speaker_wav then
    match speaker_wav with
    | Some s => s
    | None => DEFAULT_SPEAKER_WAV
    end
  else DEFAULT_SPEAKER_WAV.

Section Handlers.

Variable device : string.
Variable w : World.

(** [os.makedirs(path, exist_ok=True)] *)
Definition makedirs (path : string) : M unit :=
  match os_makedirs w path with
  | None => ret tt
  | Some msg => raise (Exception (EnvError msg))
  end.

(** [tts.tts_to_file] with keyword arguments [kw]: the call is recorded, then the backend answers. *)
Definition tts_to_file (kw : kwargs) : M unit :=
  fun st =>
    match tts_to_file_outcome w kw with
    | None => (Returns tt, record_call kw st)
    | Some msg => (Raises (Exception (EnvError msg)), record_call kw st)
    end.

(** [GET /] (lines 123-135) *)
Definition root : M response :=
  settings <- read_EMOTION_SETTINGS ;;
  ret (RootInfo "XTTS v2 TTS API is running!" device DEFAULT_SPEAKER_WAV
         (dict_keys settings)
         [ ("speed", "0.5 to 2.0 (default: 1.0)");
           ("temperature", "0.1 to 1.0 (default: 0.75)");
           ("top_p", "0.1 to 1.0 (default: 0.85)") ]).

(** The keyword arguments of the call at lines 162-173. *)
Definition speak_kwargs (req : TTSRequest.t) (speaker filename : string) : kwargs :=
  [ ("text", PyStr (TTSRequest.text req));
    ("speaker_wav", PyStr speaker);
    ("language", PyStr (TTSRequest.language req));
    ("file_path", PyStr filename);
    ("speed", opt_float (TTSRequest.speed req));
    ("temperature", opt_float (TTSRequest.temperature req));
    ("length_penalty", opt_float (TTSRequest.length_penalty req));
    ("repetition_penalty", opt_float (TTSRequest.repetition_penalty req));
    ("top_k", opt_int (TTSRequest.top_k req));
    ("top_p", opt_float (TTSRequest.top_p req)) ].

(** [POST /speak] (lines 137-186) *)
Definition speak (req : TTSRequest.t) : M response :=
  try_except (
    makedirs "output" ;;;
    let filename := "output/" ++ uuid4_hex w ++ ".wav" in
    let speaker := speaker_file (TTSRequest.speaker_wav req) in
    if negb (os_path_exists w speaker) then
      raise (HTTPException 400 ("Speaker file not found: " ++ speaker))
    else
      print [ Lit "[INFO] Generating with settings: speed=";
              Fmt (opt_float (TTSRequest.speed req));
              Lit ", temp="; Fmt (opt_float (TTSRequest.temperature req));
              Lit ", top_p="; Fmt (opt_float (TTSRequest.top_p req)) ] ;;;
      tts_to_file (speak_kwargs req speaker filename) ;;;
      print [ Lit "[SUCCESS] Generated: "; Fmt (PyStr filename) ] ;;;
      ret (FileResponse filename (basename filename) "audio/wav")).

(** The keyword arguments of the call at lines 222-230. *)
Definition speak_with_emotion_kwargs
  (modified_text speaker lang filename : string)
  (speed temperature top_p : pyval) : kwargs :=
  [ ("text", PyStr modified_text);
    ("speaker_wav", PyStr speaker);
    ("language", PyStr lang);
    ("file_path", PyStr filename);
    ("speed", speed);
    ("temperature", temperature);
    ("top_p", top_p) ].

(** [POST /speak_emotion] (lines 188-243) *)
Definition speak_with_emotion (req : EmotionPreset.t) : M response :=
  try_except (
    settings <- read_EMOTION_SETTINGS ;;
    if negb (dict_contains (EmotionPreset.emotion req) settings) then
      keys <- read_EMOTION_SETTINGS ;;
      raise (HTTPException 400
               ("Unknown emotion. Available: " ++ repr_list_str (dict_keys keys)))
    else
      makedirs "output" ;;;
      let filename := "output/" ++ uuid4_hex w ++ ".wav" in
      let speaker := speaker_file (EmotionPreset.speaker_wav req) in
      if negb (os_path_exists w speaker) then
        raise (HTTPException 400 ("Speaker file not found: " ++ speaker))
      else
        settings' <- read_EMOTION_SETTINGS ;;
        emotion_config <- subscript settings' (EmotionPreset.emotion req) ;;
        prefix <- subscript emotion_config "prefix" ;;
        modified_text <- add_str prefix (EmotionPreset.text req) ;;
        print [ Lit "[INFO] Generating with emotion: ";
                Fmt (PyStr (EmotionPreset.emotion req)) ] ;;;
        speed <- subscript emotion_config "speed" ;;
        temperature <- subscript emotion_config "temperature" ;;
        top_p <- subscript emotion_config "top_p" ;;
        tts_to_file
          (speak_with_emotion_kwargs modified_text speaker
             (EmotionPreset.language req) filename speed temperature top_p) ;;;
        print [ Lit "[SUCCESS] Generated: "; Fmt (PyStr filename) ] ;;;
        ret (FileResponse filename (basename filename) "audio/wav")).

(** [GET /emotions] (lines 245-251).  The dictionary itself is returned, not
    a copy; the framework only serialises it. *)
Definition list_emotions : M response :=
  keys <- read_EMOTION_SETTINGS ;;
  settings <- read_EMOTION_SETTINGS ;;
  ret (EmotionList (dict_keys keys) settings).

(** ** The transport boundary *)

Inductive request : Type :=
| GET_root
| GET_emotions
| POST_speak (body : TTSRequestBody.t)
| POST_speak_emotion (body : EmotionPresetBody.t).

Inductive http_response : Type :=
| Http200 (r : response)
| HttpError (status_code : Z) (detail : string)
| Http422
| HttpUnhandled (e : exception).

(** What the framework sends for the outcome of a handler. *)
Definition to_http (r : result response) : http_response :=
  match r with
  | Returns v => Http200 v
  | Raises (HTTPException c d) => HttpError c d
  | Raises (Exception e) => HttpUnhandled e
  end.

(** One request: the body is validated into its model, then the handler of
    the route runs. *)
Definition serve (rq : request) (st : State) : http_response * State :=
  match rq with
  | GET_root => let (r, st') := root st in (to_http r, st')
  | GET_emotions => let (r, st') := list_emotions st in (to_http r, st')
  | POST_speak body =>
      match parse_TTSRequest body with
      | None => (Http422, st)
      | Some req => let (r, st') := speak req st in (to_http r, st')
      end
  | POST_speak_emotion body =>
      match parse_EmotionPreset body with
      | None => (Http422, st)
      | Some req => let (r, st') := speak_with_emotion req st in (to_http r, st')
      end
  end.

End Handlers.

(** The states the service can be in: the initial one, and any state after
    one more request, whatever the collaborators answer. *)
Inductive reachable (device : string) : State -> Prop :=
| reachable_init : reachable device initial_state
| reachable_serve : forall st w rq,
    reachable device st ->
    reachable device (snd (serve device w rq st)).

(** ** Vocabulary of the statements *)

(** The file name both synthesis handlers choose (lines 149 and 203). *)
Definition output_filename (w : World) : string :=
  "output/" ++ uuid4_hex w ++ ".wav".

(** The handler gets as far as calling the backend: the output directory
    could be made and the speaker file exists. *)
Definition reaches_backend (w : World) (speaker : string) : bool :=
  match os_makedirs w "output" with
  | None => os_path_exists w speaker
  | Some _ => false
  end.

(** The backend calls made while [m] runs from [st]. *)
Definition calls_during {A : Type} (m : M A) (st : State) : list kwargs :=
  skipn (length (tts_calls st)) (tts_calls (snd (m st))).

(** The error line the [except Exception] clause prints. *)
Definition error_line (msg : string) : list fragment :=
  [Lit "[ERROR] "; Fmt (PyStr msg)].

(** [m] leaves the module-level dictionary as it found it. *)
Definition keeps_settings {A : Type} (m : M A) : Prop :=
  forall st, g_EMOTION_SETTINGS (snd (m st)) = g_EMOTION_SETTINGS st.

(** A preset as the handler needs it: a [str] prefix and the three
    parameters it forwards. *)
Definition preset_ok (cfg : dict pyval) : bool :=
  match dict_get "prefix" cfg, dict_get "speed" cfg,
        dict_get "temperature" cfg, dict_get "top_p" cfg with
  | Some (PyStr _), Some (PyFloat _), Some (PyFloat _), Some (PyFloat _) => true
  | _, _, _, _ => false
  end.

(** Closed interval test on binary64 values. *)
Definition in_range (lo hi x : float) : bool :=
  PrimFloat.leb lo x && PrimFloat.leb x hi.

(** The four values of a call that come from the preset and the base text. *)
Definition preset_view (kw : kwargs) :
  option pyval * option pyval * option pyval * option pyval :=
  (dict_get "text" kw, dict_get "speed" kw,
   dict_get "temperature" kw, dict_get "top_p" kw).

(** ** Sample collaborators and requests *)

(** Every collaborator succeeds and every path exists. *)
Definition world_ok : World :=
  {| os_makedirs := fun _ => None;
     uuid4_hex := "0123456789abcdef0123456789abcdef";
     os_path_exists := fun _ => true;
     tts_to_file_outcome := fun _ => None |}.

(** No speaker file exists. *)
Definition world_no_files : World :=
  {| os_makedirs := fun _ => None;
     uuid4_hex := "0123456789abcdef0123456789abcdef";
     os_path_exists := fun _ => false;
     tts_to_file_outcome := fun _ => None |}.

(** The backend raises with the given message. *)
Definition world_backend_fails (msg : string) : World :=
  {| os_makedirs := fun _ => None;
     uuid4_hex := "0123456789abcdef0123456789abcdef";
     os_path_exists := fun _ => true;
     tts_to_file_outcome := fun _ => Some msg |}.

(** A body that holds only [text]. *)
Definition body_text_only (txt : string) : TTSRequestBody.t :=
  {| TTSRequestBody.text := Value txt;
     TTSRequestBody.speaker_wav := Missing;
     TTSRequestBody.language := Missing;
     TTSRequestBody.speed := Missing;
     TTSRequestBody.temperature := Missing;
     TTSRequestBody.length_penalty := Missing;
     TTSRequestBody.repetition_penalty := Missing;
     TTSRequestBody.top_k := Missing;
     TTSRequestBody.top_p := Missing |}.

(** A body that holds [text] and [speed]. *)
Definition body_text_speed (txt : string) (x : float) : TTSRequestBody.t :=
  {| TTSRequestBody.text := Value txt;
     TTSRequestBody.speaker_wav := Missing;
     TTSRequestBody.language := Missing;
     TTSRequestBody.speed := Value x;
     TTSRequestBody.temperature := Missing;
     TTSRequestBody.length_penalty := Missing;
     TTSRequestBody.repetition_penalty := Missing;
     TTSRequestBody.top_k := Missing;
     TTSRequestBody.top_p := Missing |}.

(** The request [parse_TTSRequest] builds from [body_text_only]. *)
Definition request_defaults (txt : string) : TTSRequest.t :=
  {| TTSRequest.text := txt;
     TTSRequest.speaker_wav := None;
     TTSRequest.language := "en";
     TTSRequest.speed := Some 1.0%float;
     TTSRequest.temperature := Some 0.75%float;
     TTSRequest.length_penalty := Some 1.0%float;
     TTSRequest.repetition_penalty := Some 5.0%float;
     TTSRequest.top_k := Some 50%Z;
     TTSRequest.top_p := Some 0.85%float |}.

(** A [/speak] request with the default parameters and a given speaker. *)
Definition request_with_speaker (txt : string) (sw : option string) : TTSRequest.t :=
  {| TTSRequest.text := txt;
     TTSRequest.speaker_wav := sw;
     TTSRequest.language := "en";
     TTSRequest.speed := Some 1.0%float;
     TTSRequest.temperature := Some 0.75%float;
     TTSRequest.length_penalty := Some 1.0%float;
     TTSRequest.repetition_penalty := Some 5.0%float;
     TTSRequest.top_k := Some 50%Z;
     TTSRequest.top_p := Some 0.85%float |}.

(** The request [parse_TTSRequest] builds from [body_text_speed]. *)
Definition request_with_speed (txt : string) (x : float) : TTSRequest.t :=
  {| TTSRequest.text := txt;
     TTSRequest.speaker_wav := None;
     TTSRequest.language := "en";
     TTSRequest.speed := Some x;
     TTSRequest.temperature := Some 0.75%float;
     TTSRequest.length_penalty := Some 1.0%float;
     TTSRequest.repetition_penalty := Some 5.0%float;
     TTSRequest.top_k := Some 50%Z;
     TTSRequest.top_p := Some 0.85%float |}.

(** A body whose [speed] is [null], and the request built from it. *)
Definition body_speed_null (txt : string) : TTSRequestBody.t :=
  {| TTSRequestBody.text := Value txt;
     TTSRequestBody.speaker_wav := Missing;
     TTSRequestBody.language := Missing;
     TTSRequestBody.speed := Null;
     TTSRequestBody.temperature := Missing;
     TTSRequestBody.length_penalty := Missing;
     TTSRequestBody.repetition_penalty := Missing;
     TTSRequestBody.top_k := Missing;
     TTSRequestBody.top_p := Missing |}.

Definition request_speed_none (txt : string) : TTSRequest.t :=
  {| TTSRequest.text := txt;
     TTSRequest.speaker_wav := None;
     TTSRequest.language := "en";
     TTSRequest.speed := None;
     TTSRequest.temperature := Some 0.75%float;
     TTSRequest.length_penalty := Some 1.0%float;
     TTSRequest.repetition_penalty := Some 5.0%float;
     TTSRequest.top_k := Some 50%Z;
     TTSRequest.top_p := Some 0.85%float |}.

(** A body that gives [null] for every control parameter, and the request
    built from it. *)
Definition body_all_null (txt : string) : TTSRequestBody.t :=
  {| TTSRequestBody.text := Value txt;
     TTSRequestBody.speaker_wav := Missing;
     TTSRequestBody.language := Missing;
     TTSRequestBody.speed := Null;
     TTSRequestBody.temperature := Null;
     TTSRequestBody.length_penalty := Null;
     TTSRequestBody.repetition_penalty := Null;
     TTSRequestBody.top_k := Null;
     TTSRequestBody.top_p := Null |}.

Definition request_all_none (txt : string) : TTSRequest.t :=
  {| TTSRequest.text := txt;
     TTSRequest.speaker_wav := None;
     TTSRequest.language := "en";
     TTSRequest.speed := None;
     TTSRequest.temperature := None;
     TTSRequest.length_penalty := None;
     TTSRequest.repetition_penalty := None;
     TTSRequest.top_k := None;
     TTSRequest.top_p := None |}.

(** The state after one [/speak] request served on another device. *)
Definition state_after_one_request : State :=
  snd (serve "cuda" world_ok (POST_speak (body_text_only "warm up"))
         initial_state).

(** ** More vocabulary: log lines, sequences of requests *)

(** The lines printed while [m] runs from [st]. *)
Definition lines_during {A : Type} (m : M A) (st : State) : list (list fragment) :=
  skipn (length (stdout st)) (stdout (snd (m st))).

(** The line printed after a successful synthesis (lines 175 and 232). *)
Definition success_line (filename : string) : list fragment :=
  [Lit "[SUCCESS] Generated: "; Fmt (PyStr filename)].

(** The detail of the unknown-emotion error for the literal mapping. *)
Definition unknown_emotion_detail : string :=
  "Unknown emotion. Available: " ++ repr_list_str (dict_keys EMOTION_SETTINGS).

(** The list under "available_emotions" of a response, if it has one. *)
Definition available_emotions_of (r : http_response) : list string :=
  match r with
  | Http200 (RootInfo _ _ _ keys _) => keys
  | Http200 (EmotionList keys _) => keys
  | _ => []
  end.

(** Requests served one after the other, each with what the collaborators
    answer during it; the responses come in the order of the requests. *)
Fixpoint serve_many (device : string) (steps : list (World * request))
    (st : State) : list http_response * State :=
  match steps with
  | [] => ([], st)
  | (w, rq) :: rest =>
      let (r, st') := serve device w rq st in
      let (rs, st'') := serve_many device rest st' in
      (r :: rs, st'')
  end.

(** A line that starts with the "[INFO] " tag. *)
Definition info_line (line : list fragment) : Prop :=
  exists s rest, line = Lit ("[INFO] " ++ s) :: rest.

(** The shapes one served request can take: the response, and the state
    after it, from the state [st] before it. *)
Inductive served (w : World) (st : State) : http_response -> State -> Prop :=
| served_info : forall r,
    match r with FileResponse _ _ _ => False | _ => True end ->
    served w st (Http200 r) st
| served_refused :
    served w st Http422 st
| served_client_error : forall d,
    served w st (HttpError 400 d) st
| served_early_failure : forall msg,
    served w st (HttpError 500 msg) (log (error_line msg) st)
| served_file : forall kw info,
    info_line info ->
    tts_to_file_outcome w kw = None ->
    dict_get "file_path" kw = Some (PyStr (output_filename w)) ->
    served w st
      (Http200 (FileResponse (output_filename w)
                  (basename (output_filename w)) "audio/wav"))
      (log (success_line (output_filename w)) (record_call kw (log info st)))
| served_backend_failure : forall kw info msg,
    info_line info ->
    tts_to_file_outcome w kw = Some msg ->
    served w st (HttpError 500 msg)
      (log (error_line msg) (record_call kw (log info st))).

(** The response carries a file. *)
Definition is_file (r : http_response) : bool :=
  match r with
  | Http200 (FileResponse _ _ _) => true
  | _ => false
  end.

(** ** Start of the process (lines 12-50) *)

(** [d.setdefault(k, v)], as it leaves [d]. *)
Definition dict_setdefault {A : Type} (k : string) (v : A) (d : dict A) : dict A :=
  match dict_get k d with
  | Some _ => d
  | None => (d ++ [(k, v)])%list
  end.

Section TorchLoad.

Variables V R : Type.
Variable py_False : V.
Variable _original_torch_load : list V -> dict V -> R.

(** [patched_torch_load] (lines 14-16). *)
Definition patched_torch_load (args : list V) (kwargs : dict V) : R :=
  _original_torch_load args (dict_setdefault "weights_only" py_False kwargs).

End TorchLoad.

(** What the process meets while it starts: whether CUDA is there, whether
    loading the model on a device raises ([Some msg]), and whether the
    default speaker file exists. *)
Record Startup : Type := mkStartup {
  cuda_is_available : bool;
  load_model : string -> option string;
  default_speaker_exists : bool
}.

(** Line 23. *)
Definition select_device (s : Startup) : string :=
  if cuda_is_available s then "cuda" else "cpu".

(** Lines 23-50: the lines printed, and the device the service runs on, or
    the exception that ends the process. *)
Definition startup (s : Startup) : list (list fragment) * (string + string) :=
  let device := select_device s in
  match load_model s device with
  | Some e => ([[Lit "[ERROR] Failed to load TTS model:"; Lit " "; Fmt (PyStr e)]], inr e)
  | None =>
      let loaded := [Lit "[SUCCESS] XTTS v2 model loaded on "; Fmt (PyStr device)] in
      if negb (default_speaker_exists s) then
        ([loaded;
          [Lit "[WARNING] Default speaker file '"; Fmt (PyStr DEFAULT_SPEAKER_WAV);
           Lit "' not found!"]], inl device)
      else
        ([loaded;
          [Lit "[SUCCESS] Using default speaker: "; Fmt (PyStr DEFAULT_SPEAKER_WAV)]],
         inl device)
  end.

(** ** The one-shot script [ElevenLabs/generate_speech.py] *)

Module GenerateSpeech.

(** [os.path.join] of two components. *)
Definition starts_with_sep (s : string) : bool :=
  match s with
  | String c _ => Ascii.eqb c "/"
  | EmptyString => false
  end.

Fixpoint ends_with_sep (s : string) : bool :=
  match s with
  | EmptyString => false
  | String c EmptyString => Ascii.eqb c "/"
  | String _ r => ends_with_sep r
  end.

Definition path_join (a b : string) : string :=
  if starts_with_sep b then b
  else if match a with EmptyString => true | _ => ends_with_sep a end
       then a ++ b
       else a ++ "/" ++ b.

Definition TEXT_TO_SPEAK : string := "Hi! This is Eleven fron Stranger Things.".
Definition VOICE_ID : string := "pNInz6obpgDQGcFmaJgB".
Definition MODEL_ID : string := "eleven_multilingual_v2".
Definition OUTPUT_FOLDER : string := "output_audio_files".
Definition BASE_FILENAME : string := "elevenlabs_output2.mp3".
Definition OUTPUT_PATH : string := path_join OUTPUT_FOLDER BASE_FILENAME.

(** The object [client.text_to_speech.convert] returns, named by a number.
    With the SDK it is an iterator that fetches the audio only while
    [save] consumes it, so a refusal of the API surfaces in [save]. *)
Definition audio : Type := nat.

(** What the script meets: the content of [.env], and for each call the
    script makes whether that call raises ([Some msg] or [inr msg]) or
    returns; [save] raises for an error of the file system as for one of
    the API met while the audio is fetched. *)
Record Env : Type := mkEnv {
  dotenv_values : dict (option string);
  ElevenLabs : option string -> option string;
  makedirs : string -> option string;
  convert : string -> string -> string -> audio + string;
  save : audio -> string -> option string
}.

(** [config.get(key)]: [None] for a missing key and for a key without value. *)
Definition config_get (config : dict (option string)) (key : string) : option string :=
  match dict_get key config with
  | Some v => v
  | None => None
  end.

(** What the script does, in order. *)
Inductive effect : Type :=
| Print (line : string)
| NewClient (api_key : option string)
| MakeDirs (path : string)
| Convert (text voice_id model_id : string)
| Save (a : audio) (path : string).

(** How the script ends: it runs to its last line, calls [exit()], or dies
    of an exception no [except] clause catches. *)
Inductive ending : Type :=
| Finished
| Exited
| Uncaught (msg : string).

Definition newline : string := String (Ascii.ascii_of_nat 10) EmptyString.

(** Line 11. *)
Definition ELEVENLABS_API_KEY (env : Env) : option string :=
  config_get (dotenv_values env) "ELEVENLABS_API_KEY".

(** The script, top to bottom (lines 9-64). *)
Definition run (env : Env) : list effect * ending :=
  let t0 := [Print "Initializing ElevenLabs Client...";
             NewClient (ELEVENLABS_API_KEY env)] in
  match ElevenLabs env (ELEVENLABS_API_KEY env) with
  | Some e =>
      ((t0 ++ [Print ("Error initializing ElevenLabs client: " ++ e)])%list, Exited)
  | None =>
      let t1 := (t0 ++ [MakeDirs OUTPUT_FOLDER])%list in
      match makedirs env OUTPUT_FOLDER with
      | Some e => (t1, Uncaught e)
      | None =>
          let t2 :=
            (t1 ++ [Print ("Ensuring output directory '" ++ OUTPUT_FOLDER ++ "' exists.");
                    Print ("Generating audio for voice ID: " ++ VOICE_ID);
                    Convert TEXT_TO_SPEAK VOICE_ID MODEL_ID])%list in
          match convert env TEXT_TO_SPEAK VOICE_ID MODEL_ID with
          | inr e =>
              ((t2 ++ [Print "🔴 Error during audio generation. Please check your API key and network connection.";
                       Print ("Details: " ++ e)])%list, Exited)
          | inl a =>
              let t3 := (t2 ++ [Print "Audio generation successful.";
                                Save a OUTPUT_PATH])%list in
              match save env a OUTPUT_PATH with
              | None =>
                  ((t3 ++ [Print (newline ++ "✅ SUCCESS: Audio saved to **"
                                  ++ OUTPUT_PATH ++ "**")])%list, Finished)
              | Some e =>
                  ((t3 ++ [Print ("Error saving file: " ++ e)])%list, Finished)
              end
          end
      end
  end.

(** The effect is a call of the API. *)
Definition is_convert (e : effect) : bool :=
  match e with
  | Convert _ _ _ => true
  | _ => false
  end.


(** Sample runs. *)
Definition env_ok : Env :=
  {| dotenv_values := [("ELEVENLABS_API_KEY", Some "sk-test")];
     ElevenLabs := fun _ => None;
     makedirs := fun _ => None;
     convert := fun _ _ _ => inl 0%nat;
     save := fun _ _ => None |}.

(** No key in [.env]: the call of [convert] returns, and the API's refusal
    is raised while [save] fetches the audio. *)
Definition env_no_key_api_refuses : Env :=
  {| dotenv_values := [];
     ElevenLabs := fun _ => None;
     makedirs := fun _ => None;
     convert := fun _ _ _ => inl 0%nat;
     save := fun _ _ => Some "status_code: 401" |}.

Definition env_client_fails : Env :=
  {| dotenv_values := [];
     ElevenLabs := fun _ => Some "bad configuration";
     makedirs := fun _ => None;
     convert := fun _ _ _ => inl 0%nat;
     save := fun _ _ => None |}.

End GenerateSpeech.

(** * Properties *)

(** ** Dictionaries *)

Lemma dict_get_In {A : Type} (k : string) (d : dict A) (v : A) :
  dict_get k d = Some v -> In (k, v) d.
Proof.
  induction d as [| [k' v'] rest IH]; simpl.
  - discriminate.
  - destruct (String.eqb k k') eqn:E.
    + apply String.eqb_eq in E. intros [= ->]. subst. now left.
    + intro H. right. now apply IH.
Qed.

Lemma dict_contains_get {A : Type} (k : string) (d : dict A) :
  dict_contains k d = true -> exists v, dict_get k d = Some v.
Proof.
  unfold dict_contains. destruct (dict_get k d) as [v |].
  - intros _. now exists v.
  - discriminate.
Qed.

Lemma EMOTION_SETTINGS_keys :
  dict_keys EMOTION_SETTINGS =
  ["happy"; "sad"; "angry"; "excited"; "calm"; "whisper"].
Proof. reflexivity. Qed.

(** Every preset of the literal has the four entries the handler reads. *)
Lemma EMOTION_SETTINGS_presets_ok (tag : string) (cfg : dict pyval) :
  dict_get tag EMOTION_SETTINGS = Some cfg -> preset_ok cfg = true.
Proof.
  intro H. apply dict_get_In in H. simpl in H.
  repeat (destruct H as [H | H]; [injection H as <- <-; reflexivity |]).
  contradiction.
Qed.

Lemma preset_ok_inv (cfg : dict pyval) :
  preset_ok cfg = true ->
  exists p sp te tp,
    dict_get "prefix" cfg = Some (PyStr p) /\
    dict_get "speed" cfg = Some (PyFloat sp) /\
    dict_get "temperature" cfg = Some (PyFloat te) /\
    dict_get "top_p" cfg = Some (PyFloat tp).
Proof.
  unfold preset_ok.
  destruct (dict_get "prefix" cfg) as [[| | | p] |]; try discriminate.
  destruct (dict_get "speed" cfg) as [[| sp | |] |]; try discriminate.
  destruct (dict_get "temperature" cfg) as [[| te | |] |]; try discriminate.
  destruct (dict_get "top_p" cfg) as [[| tp | |] |]; try discriminate.
  intros _. now exists p, sp, te, tp.
Qed.

(** ** Backend calls of a run *)

Lemma skipn_length_app {A : Type} (l l' : list A) :
  skipn (length l) (l ++ l')%list = l'.
Proof. induction l as [| x l IH]; simpl; auto. Qed.

Lemma calls_during_app {A : Type} (m : M A) (st : State) (l : list kwargs) :
  tts_calls (snd (m st)) = (tts_calls st ++ l)%list -> calls_during m st = l.
Proof. unfold calls_during. intros ->. apply skipn_length_app. Qed.

Lemma calls_during_same {A : Type} (m : M A) (st : State) :
  tts_calls (snd (m st)) = tts_calls st -> calls_during m st = [].
Proof.
  intro H. apply calls_during_app. now rewrite app_nil_r.
Qed.

(** ** The dictionary is never written *)

Section Frame.

Variable device : string.
Variable w : World.

Lemma keeps_ret {A : Type} (a : A) : keeps_settings (ret a).
Proof. intro st. reflexivity. Qed.

Lemma keeps_raise {A : Type} (e : raised) : keeps_settings (@raise A e).
Proof. intro st. reflexivity. Qed.

Lemma keeps_bind {A B : Type} (m : M A) (k : A -> M B) :
  keeps_settings m -> (forall a, keeps_settings (k a)) ->
  keeps_settings (bind m k).
Proof.
  intros Hm Hk st. unfold bind. specialize (Hm st).
  destruct (m st) as [[a | e] st']; simpl in *.
  - now rewrite Hk.
  - exact Hm.
Qed.

Lemma keeps_print (line : list fragment) : keeps_settings (print line).
Proof. intro st. reflexivity. Qed.

Lemma keeps_read : keeps_settings read_EMOTION_SETTINGS.
Proof. intro st. reflexivity. Qed.

Lemma keeps_subscript {A : Type} (d : dict A) (k : string) :
  keeps_settings (subscript d k).
Proof.
  unfold subscript. destruct (dict_get k d); [apply keeps_ret | apply keeps_raise].
Qed.

Lemma keeps_add_str (v : pyval) (s : string) : keeps_settings (add_str v s).
Proof. destruct v; simpl; first [apply keeps_ret | apply keeps_raise]. Qed.

Lemma keeps_makedirs (path : string) : keeps_settings (makedirs w path).
Proof.
  unfold makedirs. destruct (os_makedirs w path); [apply keeps_raise | apply keeps_ret].
Qed.

Lemma keeps_tts_to_file (kw : kwargs) : keeps_settings (tts_to_file w kw).
Proof.
  intro st. unfold tts_to_file. destruct (tts_to_file_outcome w kw); reflexivity.
Qed.

Lemma keeps_if {A : Type} (b : bool) (m1 m2 : M A) :
  keeps_settings m1 -> keeps_settings m2 ->
  keeps_settings (if b then m1 else m2).
Proof. destruct b; auto. Qed.

Lemma keeps_try_except {A : Type} (body : M A) :
  keeps_settings body -> keeps_settings (try_except body).
Proof.
  intros H st. unfold try_except. specialize (H st).
  destruct (body st) as [[a | [c d | e]] st']; simpl in *; exact H.
Qed.

Create HintDb keeps.

#[local] Hint Resolve keeps_ret keeps_raise keeps_print keeps_read
  keeps_subscript keeps_add_str keeps_makedirs keeps_tts_to_file : keeps.

Ltac keeps_step :=
  first [ apply keeps_try_except
        | apply keeps_bind; [| intro]
        | apply keeps_if
        | solve [auto with keeps] ].

Lemma keeps_root : keeps_settings (root device).
Proof. unfold root. repeat keeps_step. Qed.

Lemma keeps_list_emotions : keeps_settings list_emotions.
Proof. unfold list_emotions. repeat keeps_step. Qed.

Lemma keeps_speak (req : TTSRequest.t) : keeps_settings (speak w req).
Proof. unfold speak. repeat keeps_step. Qed.

Lemma keeps_speak_with_emotion (req : EmotionPreset.t) :
  keeps_settings (speak_with_emotion w req).
Proof. unfold speak_with_emotion. repeat keeps_step. Qed.

Lemma to_http_keeps_settings (m : M response) (st : State) :
  keeps_settings m ->
  g_EMOTION_SETTINGS (snd (let (r, st') := m st in (to_http r, st'))) =
  g_EMOTION_SETTINGS st.
Proof.
  intro H. specialize (H st). destruct (m st) as [r st']. exact H.
Qed.

Lemma serve_keeps_settings (rq : request) (st : State) :
  g_EMOTION_SETTINGS (snd (serve device w rq st)) = g_EMOTION_SETTINGS st.
Proof.
  destruct rq as [| | body | body]; unfold serve.
  - apply to_http_keeps_settings, keeps_root.
  - apply to_http_keeps_settings, keeps_list_emotions.
  - destruct (parse_TTSRequest body) as [req |]; [| reflexivity].
    apply to_http_keeps_settings, keeps_speak.
  - destruct (parse_EmotionPreset body) as [req |]; [| reflexivity].
    apply to_http_keeps_settings, keeps_speak_with_emotion.
Qed.

End Frame.

Lemma reachable_settings (device : string) (st : State) :
  reachable device st -> g_EMOTION_SETTINGS st = EMOTION_SETTINGS.
Proof.
  induction 1 as [| st w rq _ IH].
  - reflexivity.
  - now rewrite serve_keeps_settings.
Qed.

(** ** What one run of a synthesis handler does *)

Section Runs.

Variable w : World.

(** The complete behaviour of [speak]. *)
Lemma speak_run (req : TTSRequest.t) (st : State) :
  let speaker := speaker_file (TTSRequest.speaker_wav req) in
  let filename := output_filename w in
  let kw := speak_kwargs req speaker filename in
  let info := [ Lit "[INFO] Generating with settings: speed=";
                Fmt (opt_float (TTSRequest.speed req));
                Lit ", temp="; Fmt (opt_float (TTSRequest.temperature req));
                Lit ", top_p="; Fmt (opt_float (TTSRequest.top_p req)) ] in
  speak w req st =
  match os_makedirs w "output" with
  | Some msg => (Raises (HTTPException 500 msg), log (error_line msg) st)
  | None =>
      if os_path_exists w speaker then
        match tts_to_file_outcome w kw with
        | None =>
            (Returns (FileResponse filename (basename filename) "audio/wav"),
             log [Lit "[SUCCESS] Generated: "; Fmt (PyStr filename)]
               (record_call kw (log info st)))
        | Some msg =>
            (Raises (HTTPException 500 msg),
             log (error_line msg) (record_call kw (log info st)))
        end
      else
        (Raises (HTTPException 400 ("Speaker file not found: " ++ speaker)), st)
  end.
Proof.
  intros speaker filename kw info.
  unfold speak, try_except, bind, makedirs.
  destruct (os_makedirs w "output") as [msg |]; [reflexivity |].
  cbv beta iota zeta delta [ret raise]. fold speaker. fold (output_filename w).
  fold filename. fold kw.
  destruct (os_path_exists w speaker); [| reflexivity].
  cbv beta iota zeta delta [negb print tts_to_file]. fold info.
  destruct (tts_to_file_outcome w kw) as [msg |]; reflexivity.
Qed.

(** The complete behaviour of [speak_with_emotion] on a known tag whose
    preset has the four entries. *)
Lemma speak_with_emotion_run (req : EmotionPreset.t) (st : State)
    (cfg : dict pyval) (p : string) (sp te tp : pyval) :
  dict_get (EmotionPreset.emotion req) (g_EMOTION_SETTINGS st) = Some cfg ->
  dict_get "prefix" cfg = Some (PyStr p) ->
  dict_get "speed" cfg = Some sp ->
  dict_get "temperature" cfg = Some te ->
  dict_get "top_p" cfg = Some tp ->
  let speaker := speaker_file (EmotionPreset.speaker_wav req) in
  let filename := output_filename w in
  let kw := speak_with_emotion_kwargs (p ++ EmotionPreset.text req) speaker
              (EmotionPreset.language req) filename sp te tp in
  let info := [ Lit "[INFO] Generating with emotion: ";
                Fmt (PyStr (EmotionPreset.emotion req)) ] in
  speak_with_emotion w req st =
  match os_makedirs w "output" with
  | Some msg => (Raises (HTTPException 500 msg), log (error_line msg) st)
  | None =>
      if os_path_exists w speaker then
        match tts_to_file_outcome w kw with
        | None =>
            (Returns (FileResponse filename (basename filename) "audio/wav"),
             log [Lit "[SUCCESS] Generated: "; Fmt (PyStr filename)]
               (record_call kw (log info st)))
        | Some msg =>
            (Raises (HTTPException 500 msg),
             log (error_line msg) (record_call kw (log info st)))
        end
      else
        (Raises (HTTPException 400 ("Speaker file not found: " ++ speaker)), st)
  end.
Proof.
  intros Hcfg Hp Hsp Hte Htp speaker filename kw info.
  unfold speak_with_emotion, try_except, bind, read_EMOTION_SETTINGS,
    dict_contains, makedirs.
  rewrite Hcfg.
  cbv beta iota zeta delta [negb].
  destruct (os_makedirs w "output") as [msg |]; [reflexivity |].
  cbv beta iota zeta delta [ret raise]. fold speaker. fold (output_filename w).
  fold filename.
  destruct (os_path_exists w speaker); [| reflexivity].
  cbv beta iota zeta delta [negb subscript ret raise].
  rewrite Hcfg. cbv beta iota zeta delta [ret].
  rewrite Hp. cbv beta iota zeta delta [ret add_str print].
  rewrite Hsp. cbv beta iota zeta delta [ret log g_EMOTION_SETTINGS stdout tts_calls].
  rewrite Hte. cbv beta iota zeta delta [ret].
  rewrite Htp. cbv beta iota zeta delta [ret tts_to_file].
  fold kw. fold info.
  destruct (tts_to_file_outcome w kw) as [msg |]; reflexivity.
Qed.

(** An unknown tag is refused before anything else happens. *)
Lemma speak_with_emotion_unknown (req : EmotionPreset.t) (st : State) :
  dict_get (EmotionPreset.emotion req) (g_EMOTION_SETTINGS st) = None ->
  speak_with_emotion w req st =
  (Raises (HTTPException 400
     ("Unknown emotion. Available: "
      ++ repr_list_str (dict_keys (g_EMOTION_SETTINGS st)))), st).
Proof.
  intro H.
  unfold speak_with_emotion, try_except, bind, read_EMOTION_SETTINGS,
    dict_contains.
  rewrite H. reflexivity.
Qed.

End Runs.

Section Calls.

Variable w : World.

Lemma speak_calls (req : TTSRequest.t) (st : State) :
  let speaker := speaker_file (TTSRequest.speaker_wav req) in
  calls_during (speak w req) st =
  if reaches_backend w speaker
  then [speak_kwargs req speaker (output_filename w)]
  else [].
Proof.
  intro speaker. apply calls_during_app.
  rewrite speak_run. fold speaker. unfold reaches_backend.
  destruct (os_makedirs w "output") as [msg |];
    [simpl; now rewrite app_nil_r |].
  destruct (os_path_exists w speaker); [| simpl; now rewrite app_nil_r].
  destruct (tts_to_file_outcome w _); reflexivity.
Qed.

Lemma speak_with_emotion_calls (req : EmotionPreset.t) (st : State)
    (cfg : dict pyval) (p : string) (sp te tp : pyval) :
  dict_get (EmotionPreset.emotion req) (g_EMOTION_SETTINGS st) = Some cfg ->
  dict_get "prefix" cfg = Some (PyStr p) ->
  dict_get "speed" cfg = Some sp ->
  dict_get "temperature" cfg = Some te ->
  dict_get "top_p" cfg = Some tp ->
  let speaker := speaker_file (EmotionPreset.speaker_wav req) in
  calls_during (speak_with_emotion w req) st =
  if reaches_backend w speaker
  then [speak_with_emotion_kwargs (p ++ EmotionPreset.text req) speaker
          (EmotionPreset.language req) (output_filename w) sp te tp]
  else [].
Proof.
  intros Hcfg Hp Hsp Hte Htp speaker. apply calls_during_app.
  rewrite (speak_with_emotion_run w req st cfg p sp te tp Hcfg Hp Hsp Hte Htp).
  fold speaker. unfold reaches_backend.
  destruct (os_makedirs w "output") as [msg |];
    [simpl; now rewrite app_nil_r |].
  destruct (os_path_exists w speaker); [| simpl; now rewrite app_nil_r].
  destruct (tts_to_file_outcome w _); reflexivity.
Qed.

End Calls.

(** ** Emotion presets *)

(** C1.  A [/speak_emotion] request with text "Hello" and emotion "whisper",
    in any state the service can be in and whatever the speaker, language
    and collaborators: the only call the backend can receive carries the
    text "**whispers** Hello" (the preset's prefix before the base text),
    speed 0.85, temperature 0.5 and top_p 0.6; it is made exactly when the
    output directory could be made and the speaker file exists. *)
Theorem whisper_hello_backend_call
    (device : string) (st : State) (w : World)
    (speaker_wav : option string) (language : string) :
  reachable device st ->
  calls_during
    (speak_with_emotion w
       (EmotionPreset.mk "Hello" "whisper" speaker_wav language)) st =
  if reaches_backend w (speaker_file speaker_wav) then
    [ [ ("text", PyStr "**whispers** Hello");
        ("speaker_wav", PyStr (speaker_file speaker_wav));
        ("language", PyStr language);
        ("file_path", PyStr (output_filename w));
        ("speed", PyFloat 0.85);
        ("temperature", PyFloat 0.5);
        ("top_p", PyFloat 0.6) ] ]
  else [].
Proof.
  intro Hr. apply reachable_settings in Hr.
  pose proof (speak_with_emotion_calls w
           (EmotionPreset.mk "Hello" "whisper" speaker_wav language) st
           [ ("temperature", PyFloat 0.5); ("speed", PyFloat 0.85);
             ("top_p", PyFloat 0.6); ("prefix", PyStr "**whispers** ") ]
           "**whispers** " (PyFloat 0.85) (PyFloat 0.5) (PyFloat 0.6)) as H.
  apply H; try reflexivity.
  rewrite Hr. reflexivity.
Qed.

Lemma whisper_hello_backend_call_witness :
  calls_during
    (speak_with_emotion world_ok
       (EmotionPreset.mk "Hello" "whisper" None "en")) initial_state =
  [ [ ("text", PyStr "**whispers** Hello");
      ("speaker_wav", PyStr "test.wav");
      ("language", PyStr "en");
      ("file_path", PyStr "output/0123456789abcdef0123456789abcdef.wav");
      ("speed", PyFloat 0.85);
      ("temperature", PyFloat 0.5);
      ("top_p", PyFloat 0.6) ] ].
Proof.
  exact (whisper_hello_backend_call "cpu" initial_state world_ok None "en"
           (reachable_init "cpu")).
Defined.

(** C3.  A [/speak_emotion] request whose tag is not a key of the preset
    mapping (such as "furious") is answered with status 400 and a detail
    listing the six available tags; the state is left as it was, so the
    backend receives no call. *)
Theorem unknown_emotion_rejected
    (device : string) (st : State) (w : World) (req : EmotionPreset.t) :
  reachable device st ->
  dict_contains (EmotionPreset.emotion req) EMOTION_SETTINGS = false ->
  speak_with_emotion w req st =
    (Raises (HTTPException 400
       "Unknown emotion. Available: ['happy', 'sad', 'angry', 'excited', 'calm', 'whisper']"),
     st)
  /\ calls_during (speak_with_emotion w req) st = []
  /\ to_http (fst (speak_with_emotion w req st)) =
       HttpError 400
         "Unknown emotion. Available: ['happy', 'sad', 'angry', 'excited', 'calm', 'whisper']".
Proof.
  intros Hr Hno. apply reachable_settings in Hr.
  assert (Hrun : speak_with_emotion w req st =
    (Raises (HTTPException 400
       "Unknown emotion. Available: ['happy', 'sad', 'angry', 'excited', 'calm', 'whisper']"),
     st)).
  { rewrite speak_with_emotion_unknown.
    - now rewrite Hr.
    - rewrite Hr. unfold dict_contains in Hno.
      destruct (dict_get _ EMOTION_SETTINGS); [discriminate | reflexivity]. }
  split; [exact Hrun |]. split.
  - apply calls_during_same. now rewrite Hrun.
  - now rewrite Hrun.
Qed.

Lemma unknown_emotion_rejected_witness :
  speak_with_emotion world_ok
    (EmotionPreset.mk "Hello" "furious" None "en") initial_state =
    (Raises (HTTPException 400
       "Unknown emotion. Available: ['happy', 'sad', 'angry', 'excited', 'calm', 'whisper']"),
     initial_state)
  /\ calls_during
       (speak_with_emotion world_ok
          (EmotionPreset.mk "Hello" "furious" None "en")) initial_state = []
  /\ to_http (fst (speak_with_emotion world_ok
          (EmotionPreset.mk "Hello" "furious" None "en") initial_state)) =
       HttpError 400
         "Unknown emotion. Available: ['happy', 'sad', 'angry', 'excited', 'calm', 'whisper']".
Proof.
  exact (unknown_emotion_rejected "cpu" initial_state world_ok
           (EmotionPreset.mk "Hello" "furious" None "en")
           (reachable_init "cpu") eq_refl).
Defined.

(** In a state the service can be in, a known tag has a preset with the
    four entries, and the handler's call is built from them. *)
Lemma speak_with_emotion_calls_reachable
    (device : string) (st : State) (w : World) (req : EmotionPreset.t)
    (cfg : dict pyval) :
  reachable device st ->
  dict_get (EmotionPreset.emotion req) EMOTION_SETTINGS = Some cfg ->
  exists p sp te tp,
    dict_get "prefix" cfg = Some (PyStr p) /\
    dict_get "speed" cfg = Some (PyFloat sp) /\
    dict_get "temperature" cfg = Some (PyFloat te) /\
    dict_get "top_p" cfg = Some (PyFloat tp) /\
    calls_during (speak_with_emotion w req) st =
    if reaches_backend w (speaker_file (EmotionPreset.speaker_wav req))
    then [speak_with_emotion_kwargs (p ++ EmotionPreset.text req)
            (speaker_file (EmotionPreset.speaker_wav req))
            (EmotionPreset.language req) (output_filename w)
            (PyFloat sp) (PyFloat te) (PyFloat tp)]
    else [].
Proof.
  intros Hr Hcfg.
  destruct (preset_ok_inv cfg (EMOTION_SETTINGS_presets_ok _ _ Hcfg))
    as (p & sp & te & tp & Hp & Hsp & Hte & Htp).
  exists p, sp, te, tp. repeat split; trivial.
  apply reachable_settings in Hr.
  apply (speak_with_emotion_calls w req st cfg); trivial.
  now rewrite Hr.
Qed.

Lemma speak_with_emotion_calls_unknown
    (device : string) (st : State) (w : World) (req : EmotionPreset.t) :
  reachable device st ->
  dict_get (EmotionPreset.emotion req) EMOTION_SETTINGS = None ->
  calls_during (speak_with_emotion w req) st = [].
Proof.
  intros Hr Hno. apply reachable_settings in Hr.
  apply calls_during_same. rewrite speak_with_emotion_unknown.
  - reflexivity.
  - now rewrite Hr.
Qed.

(** ** The speaker reference *)

(** C4, as the code has it.  When the resolved speaker file does not exist,
    no call reaches the backend and the request fails.  [/speak] answers
    400 "Speaker file not found: <file>" once the output directory is made
    (500 with the error's text if [os.makedirs] raised).  [/speak_emotion]
    does the same for a tag of the mapping, and answers 400 "Unknown
    emotion ..." for any other tag, before the speaker is looked at. *)
Theorem missing_speaker_file_rejected
    (device : string) (st : State) (w : World) :
  reachable device st ->
  (forall req : TTSRequest.t,
      os_path_exists w (speaker_file (TTSRequest.speaker_wav req)) = false ->
      speak w req st =
        match os_makedirs w "output" with
        | None =>
            (Raises (HTTPException 400
               ("Speaker file not found: "
                ++ speaker_file (TTSRequest.speaker_wav req))), st)
        | Some msg => (Raises (HTTPException 500 msg), log (error_line msg) st)
        end
      /\ calls_during (speak w req) st = [])
  /\
  (forall req : EmotionPreset.t,
      os_path_exists w (speaker_file (EmotionPreset.speaker_wav req)) = false ->
      speak_with_emotion w req st =
        (if dict_contains (EmotionPreset.emotion req) EMOTION_SETTINGS then
           match os_makedirs w "output" with
           | None =>
               (Raises (HTTPException 400
                  ("Speaker file not found: "
                   ++ speaker_file (EmotionPreset.speaker_wav req))), st)
           | Some msg =>
               (Raises (HTTPException 500 msg), log (error_line msg) st)
           end
         else
           (Raises (HTTPException 400
              "Unknown emotion. Available: ['happy', 'sad', 'angry', 'excited', 'calm', 'whisper']"),
            st))
      /\ calls_during (speak_with_emotion w req) st = []).
Proof.
  intro Hr. split.
  - intros req Hno. split.
    + rewrite speak_run. rewrite Hno. reflexivity.
    + rewrite speak_calls. unfold reaches_backend. rewrite Hno.
      now destruct (os_makedirs w "output").
  - intros req Hno. unfold dict_contains.
    destruct (dict_get (EmotionPreset.emotion req) EMOTION_SETTINGS)
      as [cfg |] eqn:Hcfg.
    + destruct (speak_with_emotion_calls_reachable device st w req cfg Hr Hcfg)
        as (p & sp & te & tp & Hp & Hsp & Hte & Htp & Hcalls).
      split.
      * pose proof (reachable_settings device st Hr) as Hg.
        rewrite (speak_with_emotion_run w req st cfg p (PyFloat sp)
                   (PyFloat te) (PyFloat tp)); trivial.
        -- rewrite Hno. reflexivity.
        -- now rewrite Hg.
      * rewrite Hcalls. unfold reaches_backend. rewrite Hno.
        now destruct (os_makedirs w "output").
    + pose proof (reachable_settings device st Hr) as Hg. split.
      * rewrite speak_with_emotion_unknown; rewrite Hg; trivial.
      * now apply (speak_with_emotion_calls_unknown device).
Qed.

Lemma missing_speaker_file_rejected_witness :
  (speak world_no_files (request_with_speaker "Hi" (Some "nope.wav"))
     initial_state =
   (Raises (HTTPException 400 "Speaker file not found: nope.wav"),
    initial_state)
   /\ calls_during
        (speak world_no_files (request_with_speaker "Hi" (Some "nope.wav")))
        initial_state = [])
  /\
  (speak_with_emotion world_no_files
     (EmotionPreset.mk "Hi" "calm" None "en") initial_state =
   (Raises (HTTPException 400 "Speaker file not found: test.wav"),
    initial_state)
   /\ calls_during
        (speak_with_emotion world_no_files
           (EmotionPreset.mk "Hi" "calm" None "en"))
        initial_state = []).
Proof.
  pose proof (missing_speaker_file_rejected "cpu" initial_state world_no_files
                (reachable_init "cpu")) as [H1 H2].
  split.
  - exact (H1 (request_with_speaker "Hi" (Some "nope.wav")) eq_refl).
  - exact (H2 (EmotionPreset.mk "Hi" "calm" None "en") eq_refl).
Defined.

(** C4, as the claim states it, fails: with the unknown tag "furious" and
    the missing speaker file "nope.wav", [/speak_emotion] answers with the
    unknown-emotion error, which does not name the file. *)
Lemma missing_speaker_file_counterexample :
  os_path_exists world_no_files (speaker_file (Some "nope.wav")) = false
  /\ fst (speak_with_emotion world_no_files
            (EmotionPreset.mk "Hi" "furious" (Some "nope.wav") "en")
            initial_state) =
     Raises (HTTPException 400
       "Unknown emotion. Available: ['happy', 'sad', 'angry', 'excited', 'calm', 'whisper']")
  /\ fst (speak_with_emotion world_no_files
            (EmotionPreset.mk "Hi" "furious" (Some "nope.wav") "en")
            initial_state) <>
     Raises (HTTPException 400 "Speaker file not found: nope.wav").
Proof.
  split; [reflexivity |]. split; [reflexivity |].
  intro H. vm_compute in H. discriminate H.
Qed.

(** C9, as the code has it.  The speaker reference is the default
    "test.wav" when [speaker_wav] is absent, null or the empty string (all
    falsy), and [speaker_wav] itself when it is a non-empty string; this
    resolved name is the one both handlers hand to the backend. *)
Theorem speaker_reference_resolution :
  speaker_file None = "test.wav"
  /\ speaker_file (Some "") = "test.wav"
  /\ (forall c r, speaker_file (Some (String c r)) = String c r)
  /\ (forall body req, parse_TTSRequest body = Some req ->
        TTSRequestBody.speaker_wav body = Missing
        \/ TTSRequestBody.speaker_wav body = Null ->
        speaker_file (TTSRequest.speaker_wav req) = DEFAULT_SPEAKER_WAV)
  /\ (forall body req, parse_EmotionPreset body = Some req ->
        EmotionPresetBody.speaker_wav body = Missing
        \/ EmotionPresetBody.speaker_wav body = Null ->
        speaker_file (EmotionPreset.speaker_wav req) = DEFAULT_SPEAKER_WAV)
  /\ (forall w req st kw,
        In kw (calls_during (speak w req) st) ->
        dict_get "speaker_wav" kw =
        Some (PyStr (speaker_file (TTSRequest.speaker_wav req))))
  /\ (forall device w req st kw,
        reachable device st ->
        In kw (calls_during (speak_with_emotion w req) st) ->
        dict_get "speaker_wav" kw =
        Some (PyStr (speaker_file (EmotionPreset.speaker_wav req)))).
Proof.
  repeat split.
  - intros body req Hparse Hsw. unfold parse_TTSRequest in Hparse.
    destruct (required (TTSRequestBody.text body)); [| discriminate].
    destruct (defaulted "en" (TTSRequestBody.language body)); [| discriminate].
    injection Hparse as <-. simpl.
    destruct Hsw as [-> | ->]; reflexivity.
  - intros body req Hparse Hsw. unfold parse_EmotionPreset in Hparse.
    destruct (required (EmotionPresetBody.text body)); [| discriminate].
    destruct (required (EmotionPresetBody.emotion body)); [| discriminate].
    destruct (defaulted "en" (EmotionPresetBody.language body)); [| discriminate].
    injection Hparse as <-. simpl.
    destruct Hsw as [-> | ->]; reflexivity.
  - intros w req st kw Hin. rewrite speak_calls in Hin.
    destruct (reaches_backend _ _); [| contradiction].
    destruct Hin as [<- | []]. reflexivity.
  - intros device w req st kw Hr Hin.
    destruct (dict_get (EmotionPreset.emotion req) EMOTION_SETTINGS)
      as [cfg |] eqn:Hcfg.
    + destruct (speak_with_emotion_calls_reachable device st w req cfg Hr Hcfg)
        as (p & sp & te & tp & _ & _ & _ & _ & Hcalls).
      rewrite Hcalls in Hin.
      destruct (reaches_backend _ _); [| contradiction].
      destruct Hin as [<- | []]. reflexivity.
    + rewrite (speak_with_emotion_calls_unknown device) in Hin; trivial.
      contradiction.
Qed.

(** C9, as the claim states it, fails: the non-null [speaker_wav] "" is not
    used verbatim; the default file is checked and handed to the backend. *)
Lemma speaker_reference_counterexample :
  speaker_file (Some "") = "test.wav"
  /\ speaker_file (Some "") <> ""
  /\ calls_during (speak world_ok (request_with_speaker "Hi" (Some "")))
       initial_state =
     [ [ ("text", PyStr "Hi");
         ("speaker_wav", PyStr "test.wav");
         ("language", PyStr "en");
         ("file_path", PyStr "output/0123456789abcdef0123456789abcdef.wav");
         ("speed", PyFloat 1.0);
         ("temperature", PyFloat 0.75);
         ("length_penalty", PyFloat 1.0);
         ("repetition_penalty", PyFloat 5.0);
         ("top_k", PyInt 50);
         ("top_p", PyFloat 0.85) ] ].
Proof.
  split; [reflexivity |]. split; [discriminate |]. reflexivity.
Qed.

Lemma speaker_reference_resolution_witness :
  speaker_file (TTSRequest.speaker_wav (request_defaults "Hi")) = "test.wav"
  /\ dict_get "speaker_wav"
       (speak_kwargs (request_with_speaker "Hi" (Some "a.wav")) "a.wav"
          (output_filename world_ok)) =
     Some (PyStr "a.wav").
Proof.
  destruct speaker_reference_resolution as (_ & _ & _ & H4 & _ & H6 & _).
  split.
  - exact (H4 (body_text_only "Hi") (request_defaults "Hi") eq_refl
             (or_introl eq_refl)).
  - exact (H6 world_ok (request_with_speaker "Hi" (Some "a.wav"))
             initial_state _ (or_introl eq_refl)).
Defined.

(** ** Which parameters reach the backend *)

(** C10.  A call [/speak_emotion] makes to the backend has exactly the
    keywords text, speaker_wav, language, file_path, speed, temperature and
    top_p, the last three being the preset's; length_penalty,
    repetition_penalty and top_k are not among them.  A call [/speak] makes
    carries all six control parameters of the request.  Each handler makes
    one such call when it gets as far as the backend. *)
Theorem emotion_forwards_three_speak_forwards_six
    (device : string) (st : State) (w : World) :
  reachable device st ->
  (forall (req : EmotionPreset.t) (cfg : dict pyval),
      dict_get (EmotionPreset.emotion req) EMOTION_SETTINGS = Some cfg ->
      length (calls_during (speak_with_emotion w req) st) =
        (if reaches_backend w (speaker_file (EmotionPreset.speaker_wav req))
         then 1%nat else 0%nat)
      /\ forall kw, In kw (calls_during (speak_with_emotion w req) st) ->
           dict_keys kw =
             ["text"; "speaker_wav"; "language"; "file_path";
              "speed"; "temperature"; "top_p"]
           /\ dict_get "speed" kw = dict_get "speed" cfg
           /\ dict_get "temperature" kw = dict_get "temperature" cfg
           /\ dict_get "top_p" kw = dict_get "top_p" cfg
           /\ dict_get "length_penalty" kw = None
           /\ dict_get "repetition_penalty" kw = None
           /\ dict_get "top_k" kw = None)
  /\
  (forall req : TTSRequest.t,
      length (calls_during (speak w req) st) =
        (if reaches_backend w (speaker_file (TTSRequest.speaker_wav req))
         then 1%nat else 0%nat)
      /\ forall kw, In kw (calls_during (speak w req) st) ->
           dict_keys kw =
             ["text"; "speaker_wav"; "language"; "file_path";
              "speed"; "temperature"; "length_penalty";
              "repetition_penalty"; "top_k"; "top_p"]
           /\ dict_get "speed" kw = Some (opt_float (TTSRequest.speed req))
           /\ dict_get "temperature" kw =
                Some (opt_float (TTSRequest.temperature req))
           /\ dict_get "length_penalty" kw =
                Some (opt_float (TTSRequest.length_penalty req))
           /\ dict_get "repetition_penalty" kw =
                Some (opt_float (TTSRequest.repetition_penalty req))
           /\ dict_get "top_k" kw = Some (opt_int (TTSRequest.top_k req))
           /\ dict_get "top_p" kw = Some (opt_float (TTSRequest.top_p req))).
Proof.
  intro Hr. split.
  - intros req cfg Hcfg.
    destruct (speak_with_emotion_calls_reachable device st w req cfg Hr Hcfg)
      as (p & sp & te & tp & _ & Hsp & Hte & Htp & Hcalls).
    rewrite Hcalls.
    destruct (reaches_backend _ _); (split; [reflexivity |]).
    + intros kw [<- | []]. rewrite Hsp, Hte, Htp. repeat split.
    + intros kw [].
  - intro req. rewrite speak_calls.
    destruct (reaches_backend _ _); (split; [reflexivity |]).
    + intros kw [<- | []]. repeat split.
    + intros kw [].
Qed.

Lemma emotion_forwards_three_speak_forwards_six_witness :
  length (calls_during
            (speak_with_emotion world_ok
               (EmotionPreset.mk "Hi" "sad" None "en")) initial_state) = 1%nat
  /\ length (calls_during (speak world_ok (request_defaults "Hi"))
               initial_state) = 1%nat.
Proof.
  destruct (emotion_forwards_three_speak_forwards_six "cpu" initial_state
              world_ok (reachable_init "cpu")) as [He Hs].
  split.
  - exact (proj1 (He (EmotionPreset.mk "Hi" "sad" None "en") _ eq_refl)).
  - exact (proj1 (Hs (request_defaults "Hi"))).
Defined.

(** C5.  Two [/speak_emotion] requests with the same tag of the mapping
    and the same base text, served in any two states the service can be
    in, with any collaborators, speakers and languages: whatever calls
    they make to the backend agree on the annotated text and on speed,
    temperature and top_p; each makes one call when it gets as far as the
    backend. *)
Theorem preset_resolution_deterministic
    (device1 device2 : string) (st1 st2 : State) (w1 w2 : World)
    (req1 req2 : EmotionPreset.t) :
  reachable device1 st1 ->
  reachable device2 st2 ->
  dict_contains (EmotionPreset.emotion req1) EMOTION_SETTINGS = true ->
  EmotionPreset.emotion req1 = EmotionPreset.emotion req2 ->
  EmotionPreset.text req1 = EmotionPreset.text req2 ->
  (forall kw1 kw2,
      In kw1 (calls_during (speak_with_emotion w1 req1) st1) ->
      In kw2 (calls_during (speak_with_emotion w2 req2) st2) ->
      preset_view kw1 = preset_view kw2)
  /\ length (calls_during (speak_with_emotion w1 req1) st1) =
       (if reaches_backend w1 (speaker_file (EmotionPreset.speaker_wav req1))
        then 1%nat else 0%nat)
  /\ length (calls_during (speak_with_emotion w2 req2) st2) =
       (if reaches_backend w2 (speaker_file (EmotionPreset.speaker_wav req2))
        then 1%nat else 0%nat).
Proof.
  intros Hr1 Hr2 Hin Htag Htext.
  destruct (dict_contains_get _ _ Hin) as [cfg Hcfg].
  destruct (speak_with_emotion_calls_reachable device1 st1 w1 req1 cfg Hr1 Hcfg)
    as (p & sp & te & tp & Hp & Hsp & Hte & Htp & Hc1).
  rewrite Htag in Hcfg.
  destruct (speak_with_emotion_calls_reachable device2 st2 w2 req2 cfg Hr2 Hcfg)
    as (p' & sp' & te' & tp' & Hp' & Hsp' & Hte' & Htp' & Hc2).
  assert (p' = p) by congruence. assert (sp' = sp) by congruence.
  assert (te' = te) by congruence. assert (tp' = tp) by congruence.
  subst p' sp' te' tp'.
  rewrite Hc1, Hc2. repeat split.
  - intros kw1 kw2 H1 H2.
    destruct (reaches_backend w1 _); [| contradiction].
    destruct (reaches_backend w2 _); [| contradiction].
    destruct H1 as [<- | []], H2 as [<- | []].
    unfold preset_view. simpl. now rewrite Htext.
  - now destruct (reaches_backend w1 _).
  - now destruct (reaches_backend w2 _).
Qed.

Lemma preset_resolution_deterministic_witness :
  (forall kw1 kw2,
      In kw1 (calls_during
                (speak_with_emotion world_ok
                   (EmotionPreset.mk "Hello" "happy" None "en"))
                initial_state) ->
      In kw2 (calls_during
                (speak_with_emotion (world_backend_fails "boom")
                   (EmotionPreset.mk "Hello" "happy" (Some "a.wav") "fr"))
                state_after_one_request) ->
      preset_view kw1 = preset_view kw2)
  /\ length (calls_during
               (speak_with_emotion world_ok
                  (EmotionPreset.mk "Hello" "happy" None "en"))
               initial_state) = 1%nat
  /\ length (calls_during
               (speak_with_emotion (world_backend_fails "boom")
                  (EmotionPreset.mk "Hello" "happy" (Some "a.wav") "fr"))
               state_after_one_request) = 1%nat.
Proof.
  exact (preset_resolution_deterministic "cpu" "cuda"
           initial_state state_after_one_request
           world_ok (world_backend_fails "boom")
           (EmotionPreset.mk "Hello" "happy" None "en")
           (EmotionPreset.mk "Hello" "happy" (Some "a.wav") "fr")
           (reachable_init "cpu")
           (reachable_serve "cuda" initial_state world_ok
              (POST_speak (body_text_only "warm up")) (reachable_init "cuda"))
           eq_refl eq_refl eq_refl).
Defined.

(** ** The preset mapping is read-only *)

(** C7.  In every state the service can be in, the module-level mapping is
    the literal of lines 81-118; serving one more request of any route,
    whatever the collaborators answer, leaves it so; and [GET /emotions]
    and [GET /] report that same mapping and its six keys. *)
Theorem emotion_settings_read_only (device : string) (st : State) :
  reachable device st ->
  g_EMOTION_SETTINGS st = EMOTION_SETTINGS
  /\ (forall w rq,
        g_EMOTION_SETTINGS (snd (serve device w rq st)) = EMOTION_SETTINGS)
  /\ (forall w,
        fst (serve device w GET_emotions st) =
        Http200 (EmotionList
                   ["happy"; "sad"; "angry"; "excited"; "calm"; "whisper"]
                   EMOTION_SETTINGS))
  /\ (forall w,
        fst (serve device w GET_root st) =
        Http200 (RootInfo "XTTS v2 TTS API is running!" device "test.wav"
                   ["happy"; "sad"; "angry"; "excited"; "calm"; "whisper"]
                   [ ("speed", "0.5 to 2.0 (default: 1.0)");
                     ("temperature", "0.1 to 1.0 (default: 0.75)");
                     ("top_p", "0.1 to 1.0 (default: 0.85)") ])).
Proof.
  intro Hr. pose proof (reachable_settings device st Hr) as Hg.
  repeat split.
  - exact Hg.
  - intros w rq. now rewrite serve_keeps_settings.
  - intro w. simpl. unfold list_emotions, bind, read_EMOTION_SETTINGS, ret.
    simpl. now rewrite Hg.
  - intro w. simpl. unfold root, bind, read_EMOTION_SETTINGS, ret.
    simpl. now rewrite Hg.
Qed.

Lemma emotion_settings_read_only_witness :
  g_EMOTION_SETTINGS state_after_one_request = EMOTION_SETTINGS
  /\ (forall w rq,
        g_EMOTION_SETTINGS (snd (serve "cuda" w rq state_after_one_request)) =
        EMOTION_SETTINGS)
  /\ (forall w,
        fst (serve "cuda" w GET_emotions state_after_one_request) =
        Http200 (EmotionList
                   ["happy"; "sad"; "angry"; "excited"; "calm"; "whisper"]
                   EMOTION_SETTINGS))
  /\ (forall w,
        fst (serve "cuda" w GET_root state_after_one_request) =
        Http200 (RootInfo "XTTS v2 TTS API is running!" "cuda" "test.wav"
                   ["happy"; "sad"; "angry"; "excited"; "calm"; "whisper"]
                   [ ("speed", "0.5 to 2.0 (default: 1.0)");
                     ("temperature", "0.1 to 1.0 (default: 0.75)");
                     ("top_p", "0.1 to 1.0 (default: 0.85)") ])).
Proof.
  exact (emotion_settings_read_only "cuda" state_after_one_request
           (reachable_serve "cuda" initial_state world_ok
              (POST_speak (body_text_only "warm up")) (reachable_init "cuda"))).
Defined.

(** ** Failures of the collaborators *)

Lemma try_except_no_exception {A : Type} (body : M A) (st : State) :
  match fst (try_except body st) with
  | Raises (Exception _) => False
  | _ => True
  end.
Proof.
  unfold try_except. destruct (body st) as [[a | [c d | e]] st']; exact I.
Qed.

Lemma try_except_maps {A : Type} (body : M A) (st st' : State) (e : exception) :
  body st = (Raises (Exception e), st') ->
  try_except body st =
  (Raises (HTTPException 500 (str e)), log (error_line (str e)) st').
Proof. unfold try_except. intros ->. reflexivity. Qed.

Lemma to_http_handled (r : result response) :
  match r with Raises (Exception _) => False | _ => True end ->
  match to_http r with HttpUnhandled _ => False | _ => True end.
Proof. destruct r as [v | [c d | e]]; simpl; auto. Qed.

Lemma serve_handled (device : string) (w : World) (rq : request) (st : State) :
  match fst (serve device w rq st) with
  | HttpUnhandled _ => False
  | _ => True
  end.
Proof.
  destruct rq as [| | body | body]; unfold serve.
  - exact I.
  - exact I.
  - destruct (parse_TTSRequest body) as [req |]; [| exact I].
    pose proof (try_except_no_exception
                  (A := response) _ st : match fst (speak w req st) with
                                         | Raises (Exception _) => False
                                         | _ => True end) as H.
    destruct (speak w req st) as [r st']. now apply to_http_handled.
  - destruct (parse_EmotionPreset body) as [req |]; [| exact I].
    pose proof (try_except_no_exception
                  (A := response) _ st
                : match fst (speak_with_emotion w req st) with
                  | Raises (Exception _) => False
                  | _ => True end) as H.
    destruct (speak_with_emotion w req st) as [r st']. now apply to_http_handled.
Qed.

(** C6, as the code has it.  No exception other than [HTTPException]
    leaves a handler, and a failure of a collaborator is answered with
    status 500 whose detail is the exception's own text [str(e)], which is
    also the last line printed, after "[ERROR] ".  Precisely, [/speak] and
    [/speak_emotion] (for a tag of the mapping) answer 500 with detail
    [msg] exactly when [os.makedirs] raised with text [msg], or the backend
    was reached and the call the handler made raised with text [msg]. *)
Theorem failures_answered_500_with_exception_text
    (device : string) (st : State) (w : World) :
  reachable device st ->
  (forall rq,
      match fst (serve device w rq st) with
      | HttpUnhandled _ => False
      | _ => True
      end)
  /\ (forall (req : TTSRequest.t) (msg : string),
        let speaker := speaker_file (TTSRequest.speaker_wav req) in
        let kw := speak_kwargs req speaker (output_filename w) in
        (to_http (fst (speak w req st)) = HttpError 500 msg <->
         os_makedirs w "output" = Some msg
         \/ reaches_backend w speaker = true
            /\ tts_to_file_outcome w kw = Some msg)
        /\ (to_http (fst (speak w req st)) = HttpError 500 msg ->
            last (stdout (snd (speak w req st))) [] = error_line msg))
  /\ (forall (req : EmotionPreset.t) (msg : string),
        dict_contains (EmotionPreset.emotion req) EMOTION_SETTINGS = true ->
        let speaker := speaker_file (EmotionPreset.speaker_wav req) in
        exists kw,
          calls_during (speak_with_emotion w req) st =
            (if reaches_backend w speaker then [kw] else [])
          /\ (to_http (fst (speak_with_emotion w req st)) = HttpError 500 msg <->
              os_makedirs w "output" = Some msg
              \/ reaches_backend w speaker = true
                 /\ tts_to_file_outcome w kw = Some msg)
          /\ (to_http (fst (speak_with_emotion w req st)) = HttpError 500 msg ->
              last (stdout (snd (speak_with_emotion w req st))) [] =
              error_line msg)).
Proof.
  intro Hr. split; [intro rq; apply serve_handled |]. split.
  - intros req msg speaker kw. rewrite speak_run. fold speaker. fold kw.
    unfold reaches_backend.
    destruct (os_makedirs w "output") as [m |].
    + split.
      * split.
        -- intros [= ->]. now left.
        -- intros [[= ->] | [H _]]; [reflexivity | discriminate H].
      * intros [= ->]. simpl. apply last_last.
    + destruct (os_path_exists w speaker).
      * destruct (tts_to_file_outcome w kw) as [m |].
        -- split.
           ++ split.
              ** intros [= ->]. right. now split.
              ** intros [H | [_ [= ->]]]; [discriminate H | reflexivity].
           ++ intros [= ->]. simpl. apply last_last.
        -- split.
           ++ split; [discriminate |].
              intros [H | [_ H]]; discriminate H.
           ++ discriminate.
      * split.
        -- split; [discriminate |].
           intros [H | [H _]]; discriminate H.
        -- discriminate.
  - intros req msg Hin speaker.
    destruct (dict_contains_get _ _ Hin) as [cfg Hcfg].
    destruct (preset_ok_inv cfg (EMOTION_SETTINGS_presets_ok _ _ Hcfg))
      as (p & sp & te & tp & Hp & Hsp & Hte & Htp).
    pose proof (reachable_settings device st Hr) as Hg.
    assert (Hcfg' : dict_get (EmotionPreset.emotion req)
                      (g_EMOTION_SETTINGS st) = Some cfg) by now rewrite Hg.
    exists (speak_with_emotion_kwargs (p ++ EmotionPreset.text req) speaker
              (EmotionPreset.language req) (output_filename w)
              (PyFloat sp) (PyFloat te) (PyFloat tp)).
    split.
    { apply (speak_with_emotion_calls w req st cfg); trivial. }
    rewrite (speak_with_emotion_run w req st cfg p (PyFloat sp)
               (PyFloat te) (PyFloat tp)); trivial.
    fold speaker. unfold reaches_backend.
    destruct (os_makedirs w "output") as [m |].
    + split.
      * split.
        -- intros [= ->]. now left.
        -- intros [[= ->] | [H _]]; [reflexivity | discriminate H].
      * intros [= ->]. simpl. apply last_last.
    + destruct (os_path_exists w speaker).
      * destruct (tts_to_file_outcome w _) as [m |].
        -- split.
           ++ split.
              ** intros [= ->]. right. now split.
              ** intros [H | [_ [= ->]]]; [discriminate H | reflexivity].
           ++ intros [= ->]. simpl. apply last_last.
        -- split.
           ++ split; [discriminate |].
              intros [H | [_ H]]; discriminate H.
           ++ discriminate.
      * split.
        -- split; [discriminate |].
           intros [H | [H _]]; discriminate H.
        -- discriminate.
Qed.

Lemma failures_answered_500_with_exception_text_witness :
  to_http (fst (speak (world_backend_fails "CUDA out of memory")
                  (request_defaults "Hi") initial_state)) =
    HttpError 500 "CUDA out of memory"
  /\ last (stdout (snd (speak (world_backend_fails "CUDA out of memory")
                          (request_defaults "Hi") initial_state))) [] =
     error_line "CUDA out of memory".
Proof.
  destruct (failures_answered_500_with_exception_text "cpu" initial_state
              (world_backend_fails "CUDA out of memory")
              (reachable_init "cpu")) as (_ & Hs & _).
  destruct (Hs (request_defaults "Hi") "CUDA out of memory") as [Hiff Hlast].
  pose proof (proj2 Hiff (or_intror (conj eq_refl eq_refl))) as Hrun.
  exact (conj Hrun (Hlast Hrun)).
Defined.

(** C6, as the claim states it, fails: the detail of the 500 response is
    not a generic message but the text of the backend's exception, so two
    backend failures give two different responses. *)
Lemma failures_generic_message_counterexample :
  fst (serve "cpu" (world_backend_fails "CUDA out of memory")
         (POST_speak (body_text_only "Hi")) initial_state) =
    HttpError 500 "CUDA out of memory"
  /\ fst (serve "cpu" (world_backend_fails "No such file: model.pth")
            (POST_speak (body_text_only "Hi")) initial_state) =
     HttpError 500 "No such file: model.pth".
Proof. split; reflexivity. Qed.

(** ** Building the request *)

Lemma parse_TTSRequest_inv (b : TTSRequestBody.t) (req : TTSRequest.t) :
  parse_TTSRequest b = Some req ->
  exists txt lang,
    required (TTSRequestBody.text b) = Some txt /\
    defaulted "en" (TTSRequestBody.language b) = Some lang /\
    req =
    {| TTSRequest.text := txt;
       TTSRequest.speaker_wav := optional None (TTSRequestBody.speaker_wav b);
       TTSRequest.language := lang;
       TTSRequest.speed := optional (Some 1.0%float) (TTSRequestBody.speed b);
       TTSRequest.temperature :=
         optional (Some 0.75%float) (TTSRequestBody.temperature b);
       TTSRequest.length_penalty :=
         optional (Some 1.0%float) (TTSRequestBody.length_penalty b);
       TTSRequest.repetition_penalty :=
         optional (Some 5.0%float) (TTSRequestBody.repetition_penalty b);
       TTSRequest.top_k := optional (Some 50%Z) (TTSRequestBody.top_k b);
       TTSRequest.top_p := optional (Some 0.85%float) (TTSRequestBody.top_p b) |}.
Proof.
  unfold parse_TTSRequest.
  destruct (required (TTSRequestBody.text b)) as [txt |]; [| discriminate].
  destruct (defaulted "en" (TTSRequestBody.language b)) as [lang |];
    [| discriminate].
  intros [= <-]. now exists txt, lang.
Qed.

(** C8, as the code has it.  In the request built from an accepted [/speak]
    body, each control parameter the body leaves out takes its default
    (speed 1.0, temperature 0.75, length_penalty 1.0, repetition_penalty
    5.0, top_k 50, top_p 0.85, language "en"), and each control parameter
    the body gives as [null] has no value: it is [None]. *)
Theorem missing_fields_default_null_fields_none
    (b : TTSRequestBody.t) (req : TTSRequest.t) :
  parse_TTSRequest b = Some req ->
  ((TTSRequestBody.speed b = Missing ->
      TTSRequest.speed req = Some 1.0%float)
   /\ (TTSRequestBody.temperature b = Missing ->
         TTSRequest.temperature req = Some 0.75%float)
   /\ (TTSRequestBody.length_penalty b = Missing ->
         TTSRequest.length_penalty req = Some 1.0%float)
   /\ (TTSRequestBody.repetition_penalty b = Missing ->
         TTSRequest.repetition_penalty req = Some 5.0%float)
   /\ (TTSRequestBody.top_k b = Missing ->
         TTSRequest.top_k req = Some 50%Z)
   /\ (TTSRequestBody.top_p b = Missing ->
         TTSRequest.top_p req = Some 0.85%float)
   /\ (TTSRequestBody.language b = Missing ->
         TTSRequest.language req = "en"))
  /\ ((TTSRequestBody.speed b = Null -> TTSRequest.speed req = None)
      /\ (TTSRequestBody.temperature b = Null ->
            TTSRequest.temperature req = None)
      /\ (TTSRequestBody.length_penalty b = Null ->
            TTSRequest.length_penalty req = None)
      /\ (TTSRequestBody.repetition_penalty b = Null ->
            TTSRequest.repetition_penalty req = None)
      /\ (TTSRequestBody.top_k b = Null -> TTSRequest.top_k req = None)
      /\ (TTSRequestBody.top_p b = Null -> TTSRequest.top_p req = None)).
Proof.
  intro H. destruct (parse_TTSRequest_inv b req H) as (txt & lang & _ & Hl & ->).
  simpl. split.
  - repeat split; try (intros ->; reflexivity).
    intro E. rewrite E in Hl. simpl in Hl. now injection Hl as <-.
  - repeat split; intros ->; reflexivity.
Qed.

Lemma missing_fields_default_null_fields_none_witness :
  (TTSRequest.speed (request_defaults "Hello") = Some 1.0%float
   /\ TTSRequest.temperature (request_defaults "Hello") = Some 0.75%float
   /\ TTSRequest.length_penalty (request_defaults "Hello") = Some 1.0%float
   /\ TTSRequest.repetition_penalty (request_defaults "Hello") = Some 5.0%float
   /\ TTSRequest.top_k (request_defaults "Hello") = Some 50%Z
   /\ TTSRequest.top_p (request_defaults "Hello") = Some 0.85%float
   /\ TTSRequest.language (request_defaults "Hello") = "en")
  /\ TTSRequest.speed (request_all_none "Hello") = None.
Proof.
  destruct (missing_fields_default_null_fields_none (body_text_only "Hello")
              (request_defaults "Hello") eq_refl)
    as ((H1 & H2 & H3 & H4 & H5 & H6 & H7) & _).
  destruct (missing_fields_default_null_fields_none (body_all_null "Hello")
              (request_all_none "Hello") eq_refl)
    as (_ & (N1 & _)).
  exact (conj
           (conj (H1 eq_refl) (conj (H2 eq_refl) (conj (H3 eq_refl)
              (conj (H4 eq_refl) (conj (H5 eq_refl)
                 (conj (H6 eq_refl) (H7 eq_refl)))))))
           (N1 eq_refl)).
Defined.

(** C8, as the claim states it, fails: a body that gives [null] for the six
    control parameters is accepted, the request has a value for none of
    them, and the backend is called with [None] for each. *)
Lemma all_null_body_counterexample :
  parse_TTSRequest (body_all_null "Hi") = Some (request_all_none "Hi")
  /\ TTSRequest.speed (request_all_none "Hi") = None
  /\ TTSRequest.temperature (request_all_none "Hi") = None
  /\ TTSRequest.length_penalty (request_all_none "Hi") = None
  /\ TTSRequest.repetition_penalty (request_all_none "Hi") = None
  /\ TTSRequest.top_k (request_all_none "Hi") = None
  /\ TTSRequest.top_p (request_all_none "Hi") = None
  /\ fst (serve "cpu" world_ok (POST_speak (body_all_null "Hi"))
            initial_state) =
     Http200 (FileResponse "output/0123456789abcdef0123456789abcdef.wav"
                "0123456789abcdef0123456789abcdef.wav" "audio/wav")
  /\ tts_calls (snd (serve "cpu" world_ok (POST_speak (body_all_null "Hi"))
                       initial_state)) =
     [ [ ("text", PyStr "Hi");
         ("speaker_wav", PyStr "test.wav");
         ("language", PyStr "en");
         ("file_path", PyStr "output/0123456789abcdef0123456789abcdef.wav");
         ("speed", PyNone);
         ("temperature", PyNone);
         ("length_penalty", PyNone);
         ("repetition_penalty", PyNone);
         ("top_k", PyNone);
         ("top_p", PyNone) ] ].
Proof. repeat split. Qed.

(** A control parameter given as [null] is not replaced by its default:
    the [Optional] field keeps [None]. *)
Lemma null_field_stays_none (b : TTSRequestBody.t) (req : TTSRequest.t) :
  parse_TTSRequest b = Some req ->
  TTSRequestBody.speed b = Null ->
  TTSRequest.speed req = None.
Proof.
  intros H E. destruct (parse_TTSRequest_inv b req H) as (txt & lang & _ & _ & ->).
  simpl. now rewrite E.
Qed.

(** C2, as the code has it.  Building the request checks no range: each
    numeric control parameter the body gives is kept exactly as given, and
    [/speak] hands the request's values unchanged to the backend.  So
    speed 3.0 is accepted and forwarded as 3.0. *)
Theorem parameters_pass_unchecked
    (b : TTSRequestBody.t) (req : TTSRequest.t) :
  parse_TTSRequest b = Some req ->
  (forall x, TTSRequestBody.speed b = Value x ->
     TTSRequest.speed req = Some x)
  /\ (forall x, TTSRequestBody.temperature b = Value x ->
        TTSRequest.temperature req = Some x)
  /\ (forall x, TTSRequestBody.top_p b = Value x ->
        TTSRequest.top_p req = Some x)
  /\ (forall w st kw,
        In kw (calls_during (speak w req) st) ->
        dict_get "speed" kw = Some (opt_float (TTSRequest.speed req))
        /\ dict_get "temperature" kw =
             Some (opt_float (TTSRequest.temperature req))
        /\ dict_get "top_p" kw = Some (opt_float (TTSRequest.top_p req)))
  /\ (forall w st,
        length (calls_during (speak w req) st) =
        if reaches_backend w (speaker_file (TTSRequest.speaker_wav req))
        then 1%nat else 0%nat).
Proof.
  intro H. destruct (parse_TTSRequest_inv b req H) as (txt & lang & _ & _ & ->).
  simpl. split; [intros x ->; reflexivity |].
  split; [intros x ->; reflexivity |].
  split; [intros x ->; reflexivity |].
  split.
  - intros w st kw Hin. rewrite speak_calls in Hin.
    destruct (reaches_backend _ _); [| contradiction].
    destruct Hin as [<- | []]. repeat split.
  - intros w st. rewrite speak_calls. now destruct (reaches_backend _ _).
Qed.

Lemma parameters_pass_unchecked_witness :
  TTSRequest.speed (request_with_speed "Hi" 3.0) = Some 3.0%float
  /\ length (calls_during (speak world_ok (request_with_speed "Hi" 3.0))
               initial_state) = 1%nat.
Proof.
  destruct (parameters_pass_unchecked (body_text_speed "Hi" 3.0)
              (request_with_speed "Hi" 3.0) eq_refl)
    as (Hspeed & _ & _ & _ & Hlen).
  exact (conj (Hspeed 3.0%float eq_refl) (Hlen world_ok initial_state)).
Defined.

(** C2, as the claim states it, fails: a body with speed 3.0, outside
    [0.5, 2.0], is neither refused nor clamped; the request is served and
    the backend is called with speed 3.0. *)
Lemma speed_out_of_range_counterexample :
  parse_TTSRequest (body_text_speed "Hi" 3.0) =
    Some (request_with_speed "Hi" 3.0)
  /\ in_range 0.5 2.0 3.0 = false
  /\ fst (serve "cpu" world_ok (POST_speak (body_text_speed "Hi" 3.0))
            initial_state) =
     Http200 (FileResponse "output/0123456789abcdef0123456789abcdef.wav"
                "0123456789abcdef0123456789abcdef.wav" "audio/wav")
  /\ map (dict_get "speed")
       (tts_calls (snd (serve "cpu" world_ok
                          (POST_speak (body_text_speed "Hi" 3.0))
                          initial_state))) =
     [Some (PyFloat 3.0)].
Proof. repeat split. Qed.


(** * Further properties of the handlers *)

(** ** Lines printed during a run *)

Lemma lines_during_app {A : Type} (m : M A) (st : State)
    (l : list (list fragment)) :
  stdout (snd (m st)) = (stdout st ++ l)%list -> lines_during m st = l.
Proof. unfold lines_during. intros ->. apply skipn_length_app. Qed.

(** ** File names *)

Lemma has_sep_app (a b : string) :
  has_sep (a ++ b) = has_sep a || has_sep b.
Proof.
  induction a as [| c a IH]; simpl.
  - reflexivity.
  - rewrite IH. now rewrite orb_assoc.
Qed.

Lemma basename_no_sep (s : string) : has_sep s = false -> basename s = s.
Proof.
  destruct s as [| c r]; [reflexivity |].
  intro H. change (basename (String c r))
    with (if has_sep (String c r) then basename r else String c r).
  now rewrite H.
Qed.

Lemma basename_after_sep (dir name : string) :
  has_sep name = false -> basename (dir ++ "/" ++ name) = name.
Proof.
  intro H. induction dir as [| c dir IH].
  - change (basename ("" ++ "/" ++ name))
      with (if has_sep (String "/" name) then basename name
            else String "/" name).
    simpl has_sep. now apply basename_no_sep.
  - change (basename (String c dir ++ "/" ++ name))
      with (if has_sep (String c (dir ++ "/" ++ name))
            then basename (dir ++ "/" ++ name)
            else String c (dir ++ "/" ++ name)).
    assert (E : has_sep (String c (dir ++ "/" ++ name)) = true).
    { simpl. rewrite has_sep_app. simpl. now rewrite !orb_true_r. }
    now rewrite E.
Qed.

(** X3.  The download name of a synthesised file: when the uuid's hex has
    no slash, [os.path.basename] of the path both handlers build,
    "output/<hex>.wav", is "<hex>.wav". *)
Theorem download_name_is_hex_wav (w : World) :
  has_sep (uuid4_hex w) = false ->
  basename (output_filename w) = uuid4_hex w ++ ".wav".
Proof.
  intro H. unfold output_filename.
  change ("output/" ++ uuid4_hex w ++ ".wav")
    with ("output" ++ "/" ++ (uuid4_hex w ++ ".wav")).
  apply basename_after_sep. rewrite has_sep_app, H. reflexivity.
Qed.

Lemma download_name_is_hex_wav_witness :
  basename (output_filename world_ok) =
  "0123456789abcdef0123456789abcdef.wav".
Proof. exact (download_name_is_hex_wav world_ok eq_refl). Defined.

(** ** When a file is returned *)

(** X1.  [/speak] returns a file only after the backend was called once and
    returned: the one call of the run is the call of lines 162-173, its
    [file_path] is the path of the response, and the response has media
    type audio/wav. *)
Theorem speak_returns_only_synthesised_file
    (w : World) (req : TTSRequest.t) (st : State) (r : response) :
  fst (speak w req st) = Returns r ->
  let speaker := speaker_file (TTSRequest.speaker_wav req) in
  let kw := speak_kwargs req speaker (output_filename w) in
  r = FileResponse (output_filename w) (basename (output_filename w)) "audio/wav"
  /\ os_makedirs w "output" = None
  /\ os_path_exists w speaker = true
  /\ tts_to_file_outcome w kw = None
  /\ calls_during (speak w req) st = [kw]
  /\ dict_get "file_path" kw = Some (PyStr (output_filename w)).
Proof.
  intros H speaker kw. rewrite speak_calls. fold speaker. fold kw.
  rewrite speak_run in H. fold speaker in H. fold kw in H.
  unfold reaches_backend.
  destruct (os_makedirs w "output") as [msg |]; [discriminate |].
  destruct (os_path_exists w speaker); [| discriminate].
  destruct (tts_to_file_outcome w kw) as [msg |]; [discriminate |].
  simpl in H. injection H as <-. repeat split.
Qed.

Lemma speak_returns_only_synthesised_file_witness :
  calls_during (speak world_ok (request_defaults "Hi")) initial_state =
  [speak_kwargs (request_defaults "Hi") "test.wav" (output_filename world_ok)].
Proof.
  exact (proj1 (proj2 (proj2 (proj2 (proj2
    (speak_returns_only_synthesised_file world_ok (request_defaults "Hi")
       initial_state
       (FileResponse (output_filename world_ok)
          (basename (output_filename world_ok)) "audio/wav")
       eq_refl)))))).
Defined.

(** X2.  [/speak_emotion], in a state the service can be in, returns a file
    only for a tag of the mapping and only after the backend was called
    once and returned; the [file_path] of that call is the path of the
    response. *)
Theorem speak_with_emotion_returns_only_synthesised_file
    (device : string) (w : World) (req : EmotionPreset.t) (st : State)
    (r : response) :
  reachable device st ->
  fst (speak_with_emotion w req st) = Returns r ->
  r = FileResponse (output_filename w) (basename (output_filename w)) "audio/wav"
  /\ dict_contains (EmotionPreset.emotion req) EMOTION_SETTINGS = true
  /\ os_makedirs w "output" = None
  /\ os_path_exists w (speaker_file (EmotionPreset.speaker_wav req)) = true
  /\ exists kw,
       calls_during (speak_with_emotion w req) st = [kw]
       /\ tts_to_file_outcome w kw = None
       /\ dict_get "file_path" kw = Some (PyStr (output_filename w)).
Proof.
  intros Hr H. pose proof (reachable_settings device st Hr) as Hg.
  unfold dict_contains.
  destruct (dict_get (EmotionPreset.emotion req) EMOTION_SETTINGS)
    as [cfg |] eqn:Hcfg.
  - destruct (speak_with_emotion_calls_reachable device st w req cfg Hr Hcfg)
      as (p & sp & te & tp & Hp & Hsp & Hte & Htp & Hcalls).
    rewrite (speak_with_emotion_run w req st cfg p (PyFloat sp)
               (PyFloat te) (PyFloat tp)) in H; trivial; [| now rewrite Hg].
    rewrite Hcalls. unfold reaches_backend.
    destruct (os_makedirs w "output") as [msg |]; [discriminate |].
    destruct (os_path_exists w _); [| discriminate].
    match type of H with
    | context [tts_to_file_outcome w ?k] =>
        destruct (tts_to_file_outcome w k) as [msg |] eqn:Hout
    end; [discriminate |].
    simpl in H. injection H as <-. repeat split.
    eexists. split; [reflexivity |]. split; [exact Hout | reflexivity].
  - rewrite speak_with_emotion_unknown in H; [discriminate | now rewrite Hg].
Qed.

Lemma speak_with_emotion_returns_only_synthesised_file_witness :
  dict_contains "calm" EMOTION_SETTINGS = true
  /\ exists kw,
       calls_during
         (speak_with_emotion world_ok (EmotionPreset.mk "Hi" "calm" None "en"))
         initial_state = [kw]
       /\ tts_to_file_outcome world_ok kw = None
       /\ dict_get "file_path" kw = Some (PyStr (output_filename world_ok)).
Proof.
  pose proof (speak_with_emotion_returns_only_synthesised_file "cpu" world_ok
                (EmotionPreset.mk "Hi" "calm" None "en") initial_state
                (FileResponse (output_filename world_ok)
                   (basename (output_filename world_ok)) "audio/wav")
                (reachable_init "cpu") eq_refl) as (_ & H2 & _ & _ & H5).
  exact (conj H2 H5).
Defined.

(** ** The shapes of a served request *)

Lemma serve_speak (device : string) (w : World) (body : TTSRequestBody.t)
    (req : TTSRequest.t) (st : State) :
  parse_TTSRequest body = Some req ->
  serve device w (POST_speak body) st =
  (to_http (fst (speak w req st)), snd (speak w req st)).
Proof.
  intro H. unfold serve. rewrite H. now destruct (speak w req st).
Qed.

Lemma serve_speak_emotion (device : string) (w : World)
    (body : EmotionPresetBody.t) (req : EmotionPreset.t) (st : State) :
  parse_EmotionPreset body = Some req ->
  serve device w (POST_speak_emotion body) st =
  (to_http (fst (speak_with_emotion w req st)),
   snd (speak_with_emotion w req st)).
Proof.
  intro H. unfold serve. rewrite H. now destruct (speak_with_emotion w req st).
Qed.

Lemma speak_served (w : World) (req : TTSRequest.t) (st : State) :
  served w st (to_http (fst (speak w req st))) (snd (speak w req st)).
Proof.
  rewrite speak_run.
  destruct (os_makedirs w "output") as [msg |]; [apply served_early_failure |].
  destruct (os_path_exists w _); [| apply served_client_error].
  match goal with
  | |- context [tts_to_file_outcome w ?k] =>
      destruct (tts_to_file_outcome w k) as [msg |] eqn:Hout
  end.
  - apply served_backend_failure; [| exact Hout].
    now exists "Generating with settings: speed=",
      [ Fmt (opt_float (TTSRequest.speed req));
        Lit ", temp="; Fmt (opt_float (TTSRequest.temperature req));
        Lit ", top_p="; Fmt (opt_float (TTSRequest.top_p req)) ].
  - apply served_file; [| exact Hout | reflexivity].
    now exists "Generating with settings: speed=",
      [ Fmt (opt_float (TTSRequest.speed req));
        Lit ", temp="; Fmt (opt_float (TTSRequest.temperature req));
        Lit ", top_p="; Fmt (opt_float (TTSRequest.top_p req)) ].
Qed.

Lemma speak_with_emotion_served (device : string) (w : World)
    (req : EmotionPreset.t) (st : State) :
  reachable device st ->
  served w st (to_http (fst (speak_with_emotion w req st)))
    (snd (speak_with_emotion w req st)).
Proof.
  intro Hr. pose proof (reachable_settings device st Hr) as Hg.
  destruct (dict_get (EmotionPreset.emotion req) EMOTION_SETTINGS)
    as [cfg |] eqn:Hcfg.
  - destruct (preset_ok_inv cfg (EMOTION_SETTINGS_presets_ok _ _ Hcfg))
      as (p & sp & te & tp & Hp & Hsp & Hte & Htp).
    rewrite (speak_with_emotion_run w req st cfg p (PyFloat sp)
               (PyFloat te) (PyFloat tp)); trivial; [| now rewrite Hg].
    destruct (os_makedirs w "output") as [msg |]; [apply served_early_failure |].
    destruct (os_path_exists w _); [| apply served_client_error].
    match goal with
    | |- context [tts_to_file_outcome w ?k] =>
        destruct (tts_to_file_outcome w k) as [msg |] eqn:Hout
    end.
    + apply served_backend_failure; [| exact Hout].
      now exists "Generating with emotion: ",
        [Fmt (PyStr (EmotionPreset.emotion req))].
    + apply served_file; [| exact Hout | reflexivity].
      now exists "Generating with emotion: ",
        [Fmt (PyStr (EmotionPreset.emotion req))].
  - rewrite speak_with_emotion_unknown; [| now rewrite Hg].
    apply served_client_error.
Qed.

Lemma serve_served (device : string) (w : World) (rq : request) (st : State) :
  reachable device st ->
  served w st (fst (serve device w rq st)) (snd (serve device w rq st)).
Proof.
  intro Hr. destruct rq as [| | body | body].
  - now apply served_info.
  - now apply served_info.
  - destruct (parse_TTSRequest body) as [req |] eqn:Hp.
    + rewrite (serve_speak device w body req st Hp). apply speak_served.
    + unfold serve. rewrite Hp. apply served_refused.
  - destruct (parse_EmotionPreset body) as [req |] eqn:Hp.
    + rewrite (serve_speak_emotion device w body req st Hp).
      now apply (speak_with_emotion_served device).
    + unfold serve. rewrite Hp. apply served_refused.
Qed.

Lemma served_growth (w : World) (st : State) (r : http_response) (st' : State) :
  served w st r st' ->
  exists cs ls,
    tts_calls st' = (tts_calls st ++ cs)%list
    /\ stdout st' = (stdout st ++ ls)%list
    /\ (length cs <= 1)%nat
    /\ (length ls <= 2)%nat.
Proof.
  intros [r0 _ | | d | msg | kw info _ _ _ | kw info msg _ _].
  - exists [], []. rewrite !app_nil_r. repeat split; simpl; lia.
  - exists [], []. rewrite !app_nil_r. repeat split; simpl; lia.
  - exists [], []. rewrite !app_nil_r. repeat split; simpl; lia.
  - exists [], [error_line msg]. rewrite app_nil_r. repeat split; simpl; lia.
  - exists [kw], [info; success_line (output_filename w)]. simpl.
    rewrite <- app_assoc. repeat split; simpl; lia.
  - exists [kw], [info; error_line msg]. simpl.
    rewrite <- app_assoc. repeat split; simpl; lia.
Qed.

Lemma info_line_not_error (info : list fragment) (msg : string) :
  info_line info -> error_line msg <> info.
Proof. intros (s & rest & ->) H. discriminate H. Qed.

Lemma info_line_not_success (info : list fragment) (f : string) :
  info_line info -> success_line f <> info.
Proof. intros (s & rest & ->) H. discriminate H. Qed.

(** ** One request, at most one synthesis *)

(** X4.  Serving one request, of any route, in a state the service can be
    in: the backend receives at most one more call and at most two more
    lines are printed; what was there before is kept, in order.  A call is
    made only for a response that is a file or a 500. *)
Theorem one_request_at_most_one_call
    (device : string) (w : World) (rq : request) (st : State) :
  reachable device st ->
  exists cs ls,
    tts_calls (snd (serve device w rq st)) = (tts_calls st ++ cs)%list
    /\ stdout (snd (serve device w rq st)) = (stdout st ++ ls)%list
    /\ (length cs <= 1)%nat
    /\ (length ls <= 2)%nat
    /\ match fst (serve device w rq st) with
       | Http200 (FileResponse _ _ _) => True
       | HttpError 500 _ => True
       | _ => cs = []
       end.
Proof.
  intro Hr.
  destruct (serve_served device w rq st Hr)
    as [r0 Hr0 | | d | msg | kw info _ _ _ | kw info msg _ _].
  - exists [], []. rewrite !app_nil_r. repeat split; simpl; try lia.
    now destruct r0.
  - exists [], []. rewrite !app_nil_r. repeat split; simpl; lia.
  - exists [], []. rewrite !app_nil_r. repeat split; simpl; lia.
  - exists [], [error_line msg]. rewrite app_nil_r. repeat split; simpl; lia.
  - exists [kw], [info; success_line (output_filename w)]. simpl.
    rewrite <- app_assoc. repeat split; simpl; lia.
  - exists [kw], [info; error_line msg]. simpl.
    rewrite <- app_assoc. repeat split; simpl; lia.
Qed.

Lemma one_request_at_most_one_call_witness :
  exists cs ls,
    tts_calls (snd (serve "cpu" world_ok (POST_speak (body_text_only "Hi"))
                      state_after_one_request)) =
      (tts_calls state_after_one_request ++ cs)%list
    /\ stdout (snd (serve "cpu" world_ok (POST_speak (body_text_only "Hi"))
                      state_after_one_request)) =
       (stdout state_after_one_request ++ ls)%list
    /\ (length cs <= 1)%nat
    /\ (length ls <= 2)%nat
    /\ match fst (serve "cpu" world_ok (POST_speak (body_text_only "Hi"))
                    state_after_one_request) with
       | Http200 (FileResponse _ _ _) => True
       | HttpError 500 _ => True
       | _ => cs = []
       end.
Proof.
  exact (one_request_at_most_one_call "cpu" world_ok
           (POST_speak (body_text_only "Hi")) state_after_one_request
           (reachable_serve "cpu" initial_state world_ok
              (POST_speak (body_text_only "warm up")) (reachable_init "cpu"))).
Defined.

(** ** Sequences of requests *)

Lemma serve_many_cons (device : string) (w : World) (rq : request)
    (rest : list (World * request)) (st : State) :
  serve_many device ((w, rq) :: rest) st =
  (fst (serve device w rq st)
     :: fst (serve_many device rest (snd (serve device w rq st))),
   snd (serve_many device rest (snd (serve device w rq st)))).
Proof.
  simpl. destruct (serve device w rq st) as [r st']. simpl.
  now destruct (serve_many device rest st').
Qed.

Lemma serve_many_accounts (device : string) (steps : list (World * request)) :
  forall st, reachable device st ->
  exists k,
    length (tts_calls (snd (serve_many device steps st))) =
      (length (tts_calls st) + k)%nat
    /\ (length (filter is_file (fst (serve_many device steps st))) <= k)%nat
    /\ (k <= length steps)%nat.
Proof.
  induction steps as [| [w rq] rest IH]; intros st Hr.
  - exists 0%nat. simpl. repeat split; lia.
  - rewrite serve_many_cons. simpl fst. simpl snd.
    destruct (IH _ (reachable_serve device st w rq Hr)) as (k & Hk & Hf & Hle).
    rewrite Hk.
    pose proof (serve_served device w rq st Hr) as Hs.
    destruct Hs as [r0 Hr0 | | d | msg | kw info _ _ _ | kw info msg _ _].
    + exists k. simpl. destruct r0; try contradiction; simpl; repeat split; lia.
    + exists k. simpl. repeat split; lia.
    + exists k. simpl. repeat split; lia.
    + exists k. simpl. repeat split; lia.
    + exists (S k). simpl. rewrite length_app. simpl. repeat split; lia.
    + exists (S k). simpl. rewrite length_app. simpl. repeat split; lia.
Qed.

(** X5.  After any sequence of requests served from the start of the
    service, there is one response per request, and the backend has been
    called at most once per request and at least once per file returned:
    no request is retried, and no file is answered without a synthesis. *)
Theorem calls_between_files_and_requests
    (device : string) (steps : list (World * request)) :
  let rs := fst (serve_many device steps initial_state) in
  let st := snd (serve_many device steps initial_state) in
  length rs = length steps
  /\ (length (filter is_file rs) <= length (tts_calls st))%nat
  /\ (length (tts_calls st) <= length steps)%nat.
Proof.
  intros rs st. split.
  - subst rs. generalize initial_state.
    induction steps as [| [w rq] rest IH]; intro s0; [reflexivity |].
    rewrite serve_many_cons. simpl. now rewrite IH.
  - destruct (serve_many_accounts device steps initial_state
                (reachable_init device)) as (k & Hk & Hf & Hle).
    subst rs st. rewrite Hk. simpl. lia.
Qed.

(** ** Status codes and log lines *)

(** X6.  In a state the service can be in, every response is a 200, a 422,
    a 400 or a 500, and the two GET routes always answer 200. *)
Theorem status_is_200_400_422_or_500
    (device : string) (w : World) (rq : request) (st : State) :
  reachable device st ->
  match fst (serve device w rq st) with
  | Http200 _ | Http422 => True
  | HttpError c _ => c = 400%Z \/ c = 500%Z
  | HttpUnhandled _ => False
  end
  /\ match rq with
     | GET_root | GET_emotions =>
         exists r, serve device w rq st = (Http200 r, st)
     | _ => True
     end.
Proof.
  intro Hr. split.
  - destruct (serve_served device w rq st Hr); simpl; auto.
  - destruct rq; simpl; trivial; eexists; reflexivity.
Qed.

Lemma status_is_200_400_422_or_500_witness :
  match fst (serve "cpu" world_no_files (POST_speak (body_text_only "Hi"))
               initial_state) with
  | Http200 _ | Http422 => True
  | HttpError c _ => c = 400%Z \/ c = 500%Z
  | HttpUnhandled _ => False
  end.
Proof.
  exact (proj1 (status_is_200_400_422_or_500 "cpu" world_no_files
                  (POST_speak (body_text_only "Hi")) initial_state
                  (reachable_init "cpu"))).
Defined.

Lemma skipn_all_length {A : Type} (l : list A) : skipn (length l) l = [].
Proof. induction l; simpl; auto. Qed.

(** X7.  The log tells what was answered.  Among the lines printed while a
    request is served, an "[ERROR] " line with text [msg] is there exactly
    when the response is a 500 with detail [msg], and the
    "[SUCCESS] Generated: <path>" line exactly when the response is a
    file. *)
Theorem log_lines_match_response
    (device : string) (w : World) (rq : request) (st : State) :
  reachable device st ->
  let new := skipn (length (stdout st)) (stdout (snd (serve device w rq st))) in
  (forall msg, In (error_line msg) new <->
               fst (serve device w rq st) = HttpError 500 msg)
  /\ (In (success_line (output_filename w)) new <->
      is_file (fst (serve device w rq st)) = true).
Proof.
  intros Hr new. subst new.
  destruct (serve_served device w rq st Hr)
    as [r0 Hr0 | | d | msg0 | kw info Hi _ _ | kw info msg0 Hi _].
  - rewrite skipn_all_length. split.
    + intro msg. split; [intros [] | discriminate].
    + split; [intros [] |]. destruct r0; simpl; try discriminate. contradiction.
  - rewrite skipn_all_length. split.
    + intro msg. split; [intros [] | discriminate].
    + split; [intros [] | discriminate].
  - rewrite skipn_all_length. split.
    + intro msg. split; [intros [] | discriminate].
    + split; [intros [] | discriminate].
  - simpl stdout. rewrite skipn_length_app. split.
    + intro msg. split.
      * intros [[= ->] | []]. reflexivity.
      * intros [= ->]. now left.
    + split; [intros [H | []]; discriminate H | discriminate].
  - simpl stdout. rewrite <- app_assoc, skipn_length_app. split.
    + intro msg. split; [| discriminate].
      intros [H | [H | []]].
      * symmetry in H. now apply info_line_not_error in H.
      * discriminate H.
    + split; [reflexivity |]. intros _. right. now left.
  - simpl stdout. rewrite <- app_assoc, skipn_length_app. split.
    + intro msg. split.
      * intros [H | [[= ->] | []]]; [| reflexivity].
        symmetry in H. now apply info_line_not_error in H.
      * intros [= ->]. right. now left.
    + split; [| discriminate].
      intros [H | [H | []]].
      * symmetry in H. now apply info_line_not_success in H.
      * discriminate H.
Qed.

Lemma log_lines_match_response_witness :
  In (error_line "CUDA out of memory")
     (skipn (length (stdout initial_state))
        (stdout (snd (serve "cpu" (world_backend_fails "CUDA out of memory")
                        (POST_speak (body_text_only "Hi")) initial_state)))).
Proof.
  exact (proj2 (proj1 (log_lines_match_response "cpu"
                         (world_backend_fails "CUDA out of memory")
                         (POST_speak (body_text_only "Hi")) initial_state
                         (reachable_init "cpu")) "CUDA out of memory")
           eq_refl).
Defined.

(** ** The listed emotions are the accepted ones *)

Lemma dict_contains_keys {A : Type} (k : string) (d : dict A) :
  In k (dict_keys d) <-> dict_contains k d = true.
Proof.
  unfold dict_contains. induction d as [| [k' v] rest IH]; simpl.
  - split; [intros [] | discriminate].
  - destruct (String.eqb k k') eqn:E.
    + apply String.eqb_eq in E. subst. split; auto.
    + apply String.eqb_neq in E. rewrite <- IH. split.
      * intros [H | H]; [congruence | exact H].
      * intro H. now right.
Qed.

(** X8.  In a state the service can be in, [GET /] and [GET /emotions] list
    the same tags, and these are exactly the tags [/speak_emotion] accepts:
    a request is answered with the unknown-emotion error if and only if its
    tag is not in that list. *)
Theorem listed_emotions_are_the_accepted_tags
    (device : string) (w w' : World) (req : EmotionPreset.t) (st : State) :
  reachable device st ->
  available_emotions_of (fst (serve device w' GET_root st)) =
  available_emotions_of (fst (serve device w' GET_emotions st))
  /\ (fst (speak_with_emotion w req st) =
      Raises (HTTPException 400 unknown_emotion_detail)
      <-> ~ In (EmotionPreset.emotion req)
              (available_emotions_of (fst (serve device w' GET_emotions st)))).
Proof.
  intro Hr. pose proof (reachable_settings device st Hr) as Hg.
  assert (Hlist : available_emotions_of (fst (serve device w' GET_emotions st))
                  = dict_keys EMOTION_SETTINGS).
  { simpl. unfold list_emotions, bind, read_EMOTION_SETTINGS, ret. simpl.
    now rewrite Hg. }
  split.
  - rewrite Hlist. simpl. unfold root, bind, read_EMOTION_SETTINGS, ret. simpl.
    now rewrite Hg.
  - rewrite Hlist, dict_contains_keys. unfold dict_contains.
    destruct (dict_get (EmotionPreset.emotion req) EMOTION_SETTINGS)
      as [cfg |] eqn:Hcfg.
    + split; [| intro H; now contradiction H].
      intros H _.
      destruct (preset_ok_inv cfg (EMOTION_SETTINGS_presets_ok _ _ Hcfg))
        as (p & sp & te & tp & Hp & Hsp & Hte & Htp).
      rewrite (speak_with_emotion_run w req st cfg p (PyFloat sp)
                 (PyFloat te) (PyFloat tp)) in H; trivial; [| now rewrite Hg].
      destruct (os_makedirs w "output") as [msg |]; [discriminate H |].
      destruct (os_path_exists w _); [| discriminate H].
      match type of H with
      | context [tts_to_file_outcome w ?k] =>
          destruct (tts_to_file_outcome w k)
      end; discriminate H.
    + split; [intros _; discriminate |]. intros _.
      rewrite speak_with_emotion_unknown; [| now rewrite Hg].
      now rewrite Hg.
Qed.

Lemma listed_emotions_are_the_accepted_tags_witness :
  fst (speak_with_emotion world_ok
         (EmotionPreset.mk "Hi" "furious" None "en") initial_state) =
  Raises (HTTPException 400 unknown_emotion_detail)
  <-> ~ In "furious"
        (available_emotions_of (fst (serve "cpu" world_ok GET_emotions
                                       initial_state))).
Proof.
  exact (proj2 (listed_emotions_are_the_accepted_tags "cpu" world_ok world_ok
                  (EmotionPreset.mk "Hi" "furious" None "en") initial_state
                  (reachable_init "cpu"))).
Defined.

(** ** Bodies the framework refuses *)

(** X9.  A [/speak] body whose [text] is missing or null, or whose
    [language] is null, is answered 422; so is a [/speak_emotion] body
    whose [text] or [emotion] is missing or null, or whose [language] is
    null.  Whatever the request, a 422 leaves the state as it was: the
    handler did not run, nothing is printed and the backend is not
    called. *)
Theorem bodies_without_text_refused_422
    (device : string) (w : World) (st : State) :
  (forall body : TTSRequestBody.t,
      required (TTSRequestBody.text body) = None
      \/ TTSRequestBody.language body = Null ->
      serve device w (POST_speak body) st = (Http422, st))
  /\ (forall body : EmotionPresetBody.t,
        required (EmotionPresetBody.text body) = None
        \/ required (EmotionPresetBody.emotion body) = None
        \/ EmotionPresetBody.language body = Null ->
        serve device w (POST_speak_emotion body) st = (Http422, st))
  /\ (forall rq,
        fst (serve device w rq st) = Http422 ->
        snd (serve device w rq st) = st).
Proof.
  assert (Hno : forall r, to_http r <> Http422).
  { intros [v | [c d | e]]; discriminate. }
  split; [| split].
  - intros body H. unfold serve, parse_TTSRequest.
    destruct H as [-> | ->]; [reflexivity |].
    now destruct (required (TTSRequestBody.text body)).
  - intros body H. unfold serve, parse_EmotionPreset.
    destruct H as [-> | [-> | ->]]; [reflexivity | |].
    + now destruct (required (EmotionPresetBody.text body)).
    + now destruct (required (EmotionPresetBody.text body)),
                   (required (EmotionPresetBody.emotion body)).
  - intros rq H. destruct rq as [| | body | body].
    + discriminate H.
    + discriminate H.
    + destruct (parse_TTSRequest body) as [req |] eqn:Hp.
      * rewrite (serve_speak device w body req st Hp) in H.
        now apply Hno in H.
      * unfold serve. now rewrite Hp.
    + destruct (parse_EmotionPreset body) as [req |] eqn:Hp.
      * rewrite (serve_speak_emotion device w body req st Hp) in H.
        now apply Hno in H.
      * unfold serve. now rewrite Hp.
Qed.

Lemma bodies_without_text_refused_422_witness :
  serve "cpu" world_ok
    (POST_speak_emotion
       {| EmotionPresetBody.text := Value "Hi";
          EmotionPresetBody.emotion := Missing;
          EmotionPresetBody.speaker_wav := Missing;
          EmotionPresetBody.language := Missing |})
    initial_state = (Http422, initial_state).
Proof.
  exact (proj1 (proj2 (bodies_without_text_refused_422 "cpu" world_ok
                         initial_state))
           {| EmotionPresetBody.text := Value "Hi";
              EmotionPresetBody.emotion := Missing;
              EmotionPresetBody.speaker_wav := Missing;
              EmotionPresetBody.language := Missing |}
           (or_intror (or_introl eq_refl))).
Defined.

(** ** What [/speak] forwards *)

(** X10.  A control parameter a [/speak] body gives as [null] is not
    replaced by its default: the backend is called with [None] for it.
    This holds for each of the six control parameters. *)
Theorem null_parameters_reach_backend_as_None
    (w : World) (st : State) (b : TTSRequestBody.t) (req : TTSRequest.t)
    (kw : kwargs) :
  parse_TTSRequest b = Some req ->
  In kw (calls_during (speak w req) st) ->
  (TTSRequestBody.speed b = Null -> dict_get "speed" kw = Some PyNone)
  /\ (TTSRequestBody.temperature b = Null ->
      dict_get "temperature" kw = Some PyNone)
  /\ (TTSRequestBody.length_penalty b = Null ->
      dict_get "length_penalty" kw = Some PyNone)
  /\ (TTSRequestBody.repetition_penalty b = Null ->
      dict_get "repetition_penalty" kw = Some PyNone)
  /\ (TTSRequestBody.top_k b = Null -> dict_get "top_k" kw = Some PyNone)
  /\ (TTSRequestBody.top_p b = Null -> dict_get "top_p" kw = Some PyNone).
Proof.
  intros H Hin.
  destruct (parse_TTSRequest_inv b req H) as (txt & lang & _ & _ & ->).
  rewrite speak_calls in Hin.
  destruct (reaches_backend _ _); [| contradiction].
  destruct Hin as [<- | []]. simpl.
  repeat split; intros ->; reflexivity.
Qed.



(** X12.  [/speak] answers 400 in one case only: the output directory was
    made and the resolved speaker file does not exist; the detail then
    names that file. *)
Theorem speak_400_only_for_missing_speaker
    (w : World) (req : TTSRequest.t) (st : State) (d : string) :
  fst (speak w req st) = Raises (HTTPException 400 d)
  <-> os_makedirs w "output" = None
      /\ os_path_exists w (speaker_file (TTSRequest.speaker_wav req)) = false
      /\ d = "Speaker file not found: "
             ++ speaker_file (TTSRequest.speaker_wav req).
Proof.
  rewrite speak_run.
  destruct (os_makedirs w "output") as [msg |].
  - split; [discriminate | intros [H _]; discriminate].
  - destruct (os_path_exists w _).
    + split; [| intros (_ & H & _); discriminate].
      match goal with
      | |- context [tts_to_file_outcome w ?k] =>
          destruct (tts_to_file_outcome w k)
      end; discriminate.
    + simpl. split.
      * intros [= <-]. auto.
      * intros (_ & _ & ->). reflexivity.
Qed.

Lemma null_parameters_reach_backend_as_None_witness :
  dict_get "speed"
    (speak_kwargs (request_speed_none "Hi") "test.wav"
       (output_filename world_ok)) = Some PyNone.
Proof.
  exact (proj1 (null_parameters_reach_backend_as_None world_ok initial_state
                  (body_speed_null "Hi") (request_speed_none "Hi")
                  (speak_kwargs (request_speed_none "Hi") "test.wav"
                     (output_filename world_ok))
                  eq_refl (or_introl eq_refl)) eq_refl).
Defined.

(** * The start of the process *)

Lemma dict_get_app {A : Type} (k : string) (d d' : dict A) :
  dict_get k (d ++ d')%list =
  match dict_get k d with
  | Some v => Some v
  | None => dict_get k d'
  end.
Proof.
  induction d as [| [k' v] rest IH]; simpl; [reflexivity |].
  now destruct (String.eqb k k').
Qed.

(** X13.  [patched_torch_load] calls the original loader with the same
    positional arguments and with keyword arguments that differ from the
    caller's in one way only: [weights_only] is [False] when the caller did
    not give it.  A value the caller gave for [weights_only] is kept, every
    other keyword is looked up as before, and the caller's keywords keep
    their order. *)
Theorem patched_torch_load_kwargs
    (V : Type) (py_False : V) (args : list V) (kwargs : dict V) :
  exists kw',
    (forall (R : Type) (orig : list V -> dict V -> R),
        patched_torch_load V R py_False orig args kwargs = orig args kw')
    /\ (forall k,
          dict_get k kw' =
          if String.eqb k "weights_only"
          then Some (match dict_get "weights_only" kwargs with
                     | Some v => v
                     | None => py_False
                     end)
          else dict_get k kwargs)
    /\ (exists extra, kw' = (kwargs ++ extra)%list /\ (length extra <= 1)%nat)
    /\ dict_setdefault "weights_only" py_False kw' = kw'.
Proof.
  exists (dict_setdefault "weights_only" py_False kwargs).
  split; [reflexivity |]. unfold dict_setdefault.
  destruct (dict_get "weights_only" kwargs) as [v |] eqn:E.
  - split; [| split].
    + intro k. destruct (String.eqb k "weights_only") eqn:Ek; [| reflexivity].
      apply String.eqb_eq in Ek. now subst.
    + exists []. rewrite app_nil_r. split; [reflexivity | simpl; lia].
    + now rewrite E.
  - split; [| split].
    + intro k. rewrite dict_get_app. simpl.
      destruct (String.eqb k "weights_only") eqn:Ek.
      * apply String.eqb_eq in Ek. subst. now rewrite E.
      * now destruct (dict_get k kwargs).
    + exists [("weights_only", py_False)]. split; [reflexivity | simpl; lia].
    + rewrite dict_get_app, E. reflexivity.
Qed.

(** X14.  Whether the default speaker file exists never decides whether the
    service starts, nor on which device: the process ends at start exactly
    when loading the model raises, and the model is loaded on "cuda" when
    CUDA is available and on "cpu" otherwise. *)
Theorem startup_depends_on_model_load_only (s : Startup) :
  (forall e, snd (startup s) = inr e <->
             load_model s (if cuda_is_available s then "cuda" else "cpu") = Some e)
  /\ (forall device, snd (startup s) = inl device <->
        load_model s (if cuda_is_available s then "cuda" else "cpu") = None
        /\ device = (if cuda_is_available s then "cuda" else "cpu"))
  /\ (forall b,
        snd (startup (mkStartup (cuda_is_available s) (load_model s) b)) =
        snd (startup s)).
Proof.
  unfold startup, select_device. simpl.
  destruct (load_model s (if cuda_is_available s then "cuda" else "cpu"))
    as [e0 |].
  - split; [| split].
    + intro e. simpl. split; intros [= ->]; reflexivity.
    + intro device. simpl. split; [discriminate | intros [H _]; discriminate H].
    + reflexivity.
  - split; [| split].
    + intro e. destruct (default_speaker_exists s); simpl;
        split; discriminate.
    + intro device. destruct (default_speaker_exists s); simpl;
        (split; [intros [= <-]; auto | intros [_ ->]; reflexivity]).
    + intro b. destruct b, (default_speaker_exists s); reflexivity.
Qed.

(** * The one-shot script *)

Section Script.

Import GenerateSpeech.

Variable env : Env.


(** How the script ends, by the calls that returned or raised. *)
Lemma script_ending_cases :
  (snd (run env) = Finished <->
   ElevenLabs env (ELEVENLABS_API_KEY env) = None
   /\ makedirs env OUTPUT_FOLDER = None
   /\ exists a, convert env TEXT_TO_SPEAK VOICE_ID MODEL_ID = inl a)
  /\ (snd (run env) = Exited <->
      (exists e, ElevenLabs env (ELEVENLABS_API_KEY env) = Some e)
      \/ (ElevenLabs env (ELEVENLABS_API_KEY env) = None
          /\ makedirs env OUTPUT_FOLDER = None
          /\ exists e, convert env TEXT_TO_SPEAK VOICE_ID MODEL_ID = inr e))
  /\ (forall e, snd (run env) = Uncaught e <->
      ElevenLabs env (ELEVENLABS_API_KEY env) = None /\ makedirs env OUTPUT_FOLDER = Some e).
Proof.
  unfold run.
  destruct (ElevenLabs env (ELEVENLABS_API_KEY env)) as [e0 |].
  { simpl. split; [| split].
    - split; [discriminate | intros (H & _); discriminate H].
    - split; [intros _; left; now exists e0 | reflexivity].
    - intro e. split; [discriminate | intros (H & _); discriminate H]. }
  destruct (makedirs env OUTPUT_FOLDER) as [e0 |].
  { simpl. split; [| split].
    - split; [discriminate | intros (_ & H & _); discriminate H].
    - split; [discriminate |].
      intros [[e H] | (_ & H & _)]; discriminate H.
    - intro e. split; [intros [= ->]; auto | intros (_ & [= ->]); reflexivity]. }
  destruct (convert env TEXT_TO_SPEAK VOICE_ID MODEL_ID) as [a0 | e0].
  - assert (E : forall t t' : list effect,
               snd (match save env a0 OUTPUT_PATH with
                    | None => (t, Finished)
                    | Some _ => (t', Finished)
                    end) = Finished).
    { intros t t'. now destruct (save env a0 OUTPUT_PATH). }
    split; [| split].
    + split; [intros _; repeat split; now exists a0 |].
      intros _. destruct (save env a0 OUTPUT_PATH); reflexivity.
    + split.
      * destruct (save env a0 OUTPUT_PATH); discriminate.
      * intros [[e H] | (_ & _ & e & H)]; discriminate H.
    + intro e. split.
      * destruct (save env a0 OUTPUT_PATH); discriminate.
      * intros (_ & H). discriminate H.
  - simpl. split; [| split].
    + split; [discriminate | intros (_ & _ & a & H); discriminate H].
    + split; [| reflexivity]. intros _. right. repeat split. now exists e0.
    + intro e. split; [discriminate | intros (_ & H); discriminate H].
Qed.

Lemma script_save_error_printed (a : audio) (e : string) :
  ElevenLabs env (ELEVENLABS_API_KEY env) = None ->
  makedirs env OUTPUT_FOLDER = None ->
  convert env TEXT_TO_SPEAK VOICE_ID MODEL_ID = inl a ->
  save env a OUTPUT_PATH = Some e ->
  snd (run env) = Finished
  /\ In (Print "Audio generation successful.") (fst (run env))
  /\ last (fst (run env)) (Print "") = Print ("Error saving file: " ++ e).
Proof.
  intros H1 H2 H3 H4. unfold run. rewrite H1, H2, H3, H4. simpl.
  repeat split. do 6 right. now left.
Qed.

(** X16.  How the script ends, in terms of the calls it makes.  It runs to
    its last line exactly when creating the client, [os.makedirs] and the
    call of [convert] all returned, whether or not [save] then raises; it
    calls [exit()] exactly when creating the client raises or the call of
    [convert] raises; and an error of [os.makedirs] is caught by nothing.
    When [save] raises with text [e] (an error of the API met while the
    audio is fetched included), "Audio generation successful." has been
    printed, the last line printed is "Error saving file: " followed by
    [e], and the script still runs to its last line. *)
Theorem script_ending :
  ((snd (run env) = Finished <->
    ElevenLabs env (ELEVENLABS_API_KEY env) = None
    /\ makedirs env OUTPUT_FOLDER = None
    /\ exists a, convert env TEXT_TO_SPEAK VOICE_ID MODEL_ID = inl a)
   /\ (snd (run env) = Exited <->
       (exists e, ElevenLabs env (ELEVENLABS_API_KEY env) = Some e)
       \/ (ElevenLabs env (ELEVENLABS_API_KEY env) = None
           /\ makedirs env OUTPUT_FOLDER = None
           /\ exists e, convert env TEXT_TO_SPEAK VOICE_ID MODEL_ID = inr e))
   /\ (forall e, snd (run env) = Uncaught e <->
       ElevenLabs env (ELEVENLABS_API_KEY env) = None
       /\ makedirs env OUTPUT_FOLDER = Some e))
  /\ (forall a e,
        ElevenLabs env (ELEVENLABS_API_KEY env) = None ->
        makedirs env OUTPUT_FOLDER = None ->
        convert env TEXT_TO_SPEAK VOICE_ID MODEL_ID = inl a ->
        save env a OUTPUT_PATH = Some e ->
        snd (run env) = Finished
        /\ In (Print "Audio generation successful.") (fst (run env))
        /\ last (fst (run env)) (Print "") = Print ("Error saving file: " ++ e)).
Proof.
  split; [exact script_ending_cases | exact script_save_error_printed].
Qed.

(** X17.  The script asks the API at most once, always for the same text,
    voice and model, and only after the client was created with the key
    read from [.env] ([None] when the key is missing) and the output
    directory was made. *)
Theorem script_asks_api_once (text voice_id model_id : string) :
  (In (Convert text voice_id model_id) (fst (run env)) <->
   text = "Hi! This is Eleven fron Stranger Things."
   /\ voice_id = "pNInz6obpgDQGcFmaJgB"
   /\ model_id = "eleven_multilingual_v2"
   /\ ElevenLabs env (ELEVENLABS_API_KEY env) = None
   /\ makedirs env OUTPUT_FOLDER = None)
  /\ (length (filter is_convert (fst (run env))) <= 1)%nat
  /\ (forall k, In (NewClient k) (fst (run env)) <-> k = ELEVENLABS_API_KEY env).
Proof.
  unfold run.
  destruct (ElevenLabs env (ELEVENLABS_API_KEY env)) as [e |].
  { simpl. split; [| split; [lia |]].
    - split.
      + intros [H | [H | [H | []]]]; discriminate H.
      + intros (_ & _ & _ & H & _). discriminate H.
    - intro k. split.
      + intros [H | [H | [H | []]]]; try discriminate H. now injection H.
      + intros ->. right. now left. }
  destruct (makedirs env OUTPUT_FOLDER) as [e |].
  { simpl. split; [| split; [lia |]].
    - split.
      + intros [H | [H | [H | []]]]; discriminate H.
      + intros (_ & _ & _ & _ & H). discriminate H.
    - intro k. split.
      + intros [H | [H | [H | []]]]; try discriminate H. now injection H.
      + intros ->. right. now left. }
  destruct (convert env TEXT_TO_SPEAK VOICE_ID MODEL_ID) as [a0 | e];
    [destruct (save env a0 OUTPUT_PATH) as [e |] |];
    simpl; (split; [| split; [lia |]]);
    try (split;
         [ intros H; repeat (destruct H as [H | H]; try discriminate H);
           [injection H as <- <- <-; auto | contradiction]
         | intros (-> & -> & -> & _); do 5 right; now left ]);
    try (intro k; split;
         [ intros H; repeat (destruct H as [H | H]; try discriminate H);
           [now injection H | contradiction]
         | intros ->; right; now left ]).
Qed.

End Script.

(** The run in which the API refuses the key: the refusal surfaces in
    [save], after the success line of the conversion. *)
Lemma script_ending_witness :
  snd (GenerateSpeech.run GenerateSpeech.env_no_key_api_refuses) =
    GenerateSpeech.Finished
  /\ In (GenerateSpeech.Print "Audio generation successful.")
       (fst (GenerateSpeech.run GenerateSpeech.env_no_key_api_refuses))
  /\ last (fst (GenerateSpeech.run GenerateSpeech.env_no_key_api_refuses))
       (GenerateSpeech.Print "") =
     GenerateSpeech.Print "Error saving file: status_code: 401".
Proof.
  exact (proj2 (script_ending GenerateSpeech.env_no_key_api_refuses)
           0%nat "status_code: 401" eq_refl eq_refl eq_refl eq_refl).
Defined.
